(** * ttk::ContinuousScatterPlot — a shallow embedding and its properties

    Source: [core/base/continuousScatterPlot/ContinuousScatterPlot.h].

    The per-cell body of [ContinuousScatterPlot::execute] is embedded as pure
    functions over an arithmetic interface [Scalar] that stands for the C++
    types [double] and [float].  Two instances are given: IEEE binary64 /
    binary32 (Rocq's primitive floats and [SpecFloat]), on which the code can
    be run, and the real numbers, on which the statements about exact
    arithmetic are proved.

    The build modelled is the default one: [TTK_ENABLE_KAMIKAZE] undefined
    (the precondition checks are compiled in); the OpenMP loop is modelled by
    its sequential order, which hands the thread's own [triangles] vector
    ([firstprivate]) from one iteration to the next. *)

From Stdlib Require Import ZArith List Bool Reals Lra Floats.
From Stdlib Require Import Lia.
Import ListNotations.

Set Implicit Arguments.

(** ** Fixed-size arrays and their indices *)

(** [k] of the loops [for(int k = 0; k < 3; ++k)]. *)
Inductive idx3 : Type := X0 | X1 | X2.

(** Local vertex number of a tetrahedron, the values stored in [int index[4]]. *)
Inductive idx4 : Type := K0 | K1 | K2 | K3.

Definition idx4_eqb (i j : idx4) : bool :=
  match i, j with
  | K0, K0 | K1, K1 | K2, K2 | K3, K3 => true
  | _, _ => false
  end.

Definition idx4_to_Z (i : idx4) : Z :=
  match i with K0 => 0 | K1 => 1 | K2 => 2 | K3 => 3 end.

(** [T x[3]] *)
Record array3 (A : Type) : Type := Arr3 { a3_0 : A; a3_1 : A; a3_2 : A }.

(** [T x[4]] *)
Record array4 (A : Type) : Type := Arr4 { a4_0 : A; a4_1 : A; a4_2 : A; a4_3 : A }.

Definition get3 {A} (v : array3 A) (k : idx3) : A :=
  match k with X0 => a3_0 v | X1 => a3_1 v | X2 => a3_2 v end.

Definition get4 {A} (v : array4 A) (k : idx4) : A :=
  match k with K0 => a4_0 v | K1 => a4_1 v | K2 => a4_2 v | K3 => a4_3 v end.

(** The array filled by a loop over [k = 0, 1, 2]. *)
Definition build3 {A} (f : idx3 -> A) : array3 A := Arr3 (f X0) (f X1) (f X2).

Declare Scope arr_scope.
Delimit Scope arr_scope with arr.
Notation "v .[ k ]" := (get3 v k) (at level 1, left associativity, format "v .[ k ]") : arr_scope.
Notation "v .<< k >>" := (get4 v k) (at level 1, left associativity, format "v .<< k >>") : arr_scope.
Open Scope arr_scope.

(** ** The arithmetic of the source *)

(** The operations of [double] and [float] that [execute] uses.  [flt] values
    only occur as vertex coordinates: they are subtracted from each other in
    [float] and then widened ([f_sub]), or widened as they are ([f_val]). *)
Class Scalar : Type := {
  dbl : Type;
  flt : Type;
  d_zero : dbl;
  d_one : dbl;
  d_add : dbl -> dbl -> dbl;
  d_sub : dbl -> dbl -> dbl;
  d_mul : dbl -> dbl -> dbl;
  d_div : dbl -> dbl -> dbl;
  d_sqrt : dbl -> dbl;
  d_eqb : dbl -> dbl -> bool;
  d_ltb : dbl -> dbl -> bool;
  (** [std::numeric_limits<double>::max()] *)
  d_max : dbl;
  f_sub : flt -> flt -> dbl;
  f_val : flt -> dbl
}.

Declare Scope dbl_scope.
Delimit Scope dbl_scope with dbl.
Notation "x + y" := (d_add x y) : dbl_scope.
Notation "x - y" := (d_sub x y) : dbl_scope.
Notation "x * y" := (d_mul x y) : dbl_scope.
Notation "x / y" := (d_div x y) : dbl_scope.
Notation "x == y" := (d_eqb x y) (at level 70, no associativity) : dbl_scope.
Notation "x <? y" := (d_ltb x y) (at level 70, no associativity) : dbl_scope.
Notation "0" := d_zero : dbl_scope.
Notation "1" := d_one : dbl_scope.

(** *** IEEE instance: [double] is binary64, [float] is binary32 *)

Module Ieee.

(** binary32 values, as [SpecFloat] data with 24 bits of precision. *)
Definition single : Type := spec_float.
Definition single_prec : Z := 24.
Definition single_emax : Z := 128.

(** [(float)x] of a [double]: round to nearest even on 24 bits. *)
Definition to_single (x : float) : single :=
  match Prim2SF x with
  | S754_finite s m e =>
      binary_normalize single_prec single_emax
        (if s then Zneg m else Zpos m) e s
  | other => other
  end.

(** [(double)x] of a [float]: exact. *)
Definition of_single (x : single) : float := SF2Prim x.

Definition single_sub (x y : single) : float :=
  of_single (SFsub single_prec single_emax x y).

(** [DBL_MAX = (2 - 2^-52) * 2^1023] *)
Definition DBL_MAX : float := 0x1.fffffffffffffp+1023%float.

#[export] Instance scalar : Scalar := {|
  dbl := float;
  flt := single;
  d_zero := 0%float;
  d_one := 1%float;
  d_add := PrimFloat.add;
  d_sub := PrimFloat.sub;
  d_mul := PrimFloat.mul;
  d_div := PrimFloat.div;
  d_sqrt := PrimFloat.sqrt;
  d_eqb := PrimFloat.eqb;
  d_ltb := PrimFloat.ltb;
  d_max := DBL_MAX;
  f_sub := single_sub;
  f_val := of_single
|}.

End Ieee.

(** *** Exact instance: both types are the real numbers *)

Module Exact.

Definition Reqb (x y : R) : bool := if Req_dec_T x y then true else false.
Definition Rltb (x y : R) : bool := if Rlt_dec x y then true else false.

(** The real number that [DBL_MAX] denotes. *)
Definition DBL_MAX : R := ((2 - / 2 ^ 52) * 2 ^ 1023)%R.

#[export] Instance scalar : Scalar := {|
  dbl := R;
  flt := R;
  d_zero := 0%R;
  d_one := 1%R;
  d_add := Rplus;
  d_sub := Rminus;
  d_mul := Rmult;
  d_div := Rdiv;
  d_sqrt := R_sqrt.sqrt;
  d_eqb := Reqb;
  d_ltb := Rltb;
  d_max := DBL_MAX;
  f_sub := Rminus;
  f_val := fun x => x
|}.

End Exact.

(** ** Geometry helpers *)

Section Geometry.
Context {S : Scalar}.
Local Open Scope dbl_scope.

Definition vec : Type := array3 dbl.

(** Modelled from the spec: [Geometry::crossProduct(vA, vB, out)] is declared
    in [Geometry.h], which is not among the sources; the spec
    calls it the cross product [vA × vB]. *)
Definition crossProduct (vA vB : vec) : vec :=
  Arr3 (vA.[X1] * vB.[X2] - vA.[X2] * vB.[X1])
       (vA.[X2] * vB.[X0] - vA.[X0] * vB.[X2])
       (vA.[X0] * vB.[X1] - vA.[X1] * vB.[X0]).

(** Modelled from the spec: [Geometry::dotProduct(vA, vB)] ([Geometry.h] is
    absent); the spec's scalar product [vA · vB]. *)
Definition dotProduct (vA vB : vec) : dbl :=
  vA.[X0] * vB.[X0] + vA.[X1] * vB.[X1] + vA.[X2] * vB.[X2].

(** Modelled from the spec: [Geometry::magnitude(v)] ([Geometry.h] is
    absent); the spec's Euclidean norm [|v|]. *)
Definition magnitude (v : vec) : dbl := d_sqrt (dotProduct v v).

(** Modelled from the spec: [Geometry::distance(p0, p1)] ([Geometry.h] is
    absent); the spec's [|p0 − p1|]. *)
Definition distance (p0 p1 : vec) : dbl :=
  d_sqrt ((p0.[X0] - p1.[X0]) * (p0.[X0] - p1.[X0])
          + (p0.[X1] - p1.[X1]) * (p0.[X1] - p1.[X1])
          + (p0.[X2] - p1.[X2]) * (p0.[X2] - p1.[X2])).

(** The planar predicates of [Geometry.h], of which the spec only says
    "lies inside the 2D triangle", "triangle area" and "2D segment
    intersection": they are parameters of the embedding.

    - [isPointInTriangle p0 p1 p2 p]: is [p] inside the triangle
      [p0 p1 p2] (the apex is the last argument, as the permutations that
      [execute] stores next to each call show);
    - [computeTriangleArea p0 p1 p2]: the value written to the output
      argument [area];
    - [computeSegmentIntersection xA yA xB yB xC yC xD yD (x, y)]: the
      returned flag and the contents of the reference arguments [x], [y]
      after the call, given their contents before it. *)
Class Planar : Type := {
  isPointInTriangle : vec -> vec -> vec -> vec -> bool;
  computeTriangleArea : vec -> vec -> vec -> dbl;
  computeSegmentIntersection :
    dbl -> dbl -> dbl -> dbl -> dbl -> dbl -> dbl -> dbl ->
    dbl * dbl -> bool * (dbl * dbl)
}.

(** *** A reference implementation of the planar predicates *)

(** Twice the signed area of the 2D triangle [p0 p1 p2]. *)
Definition orient2d (p0 p1 p2 : vec) : dbl :=
  (p1.[X0] - p0.[X0]) * (p2.[X1] - p0.[X1])
  - (p2.[X0] - p0.[X0]) * (p1.[X1] - p0.[X1]).

(** Modelled from the spec: [Geometry::isPointInTriangle] ([Geometry.h] is
    absent); "[p] lies inside the 2D triangle formed by [p0 p1 p2]",
    border included: [p] is not strictly on both sides of two edges. *)
Definition isPointInTriangle_ref (p0 p1 p2 p : vec) : bool :=
  let e0 := orient2d p0 p1 p in
  let e1 := orient2d p1 p2 p in
  let e2 := orient2d p2 p0 p in
  let has_neg := (e0 <? 0) || (e1 <? 0) || (e2 <? 0) in
  let has_pos := (0 <? e0) || (0 <? e1) || (0 <? e2) in
  negb (has_neg && has_pos).

(** Modelled from the spec: [Geometry::computeTriangleArea] ([Geometry.h] is
    absent); the spec's "signed 2D triangle area". *)
Definition computeTriangleArea_ref (p0 p1 p2 : vec) : dbl :=
  orient2d p0 p1 p2 / (1 + 1).

(** Modelled from the spec: [Geometry::computeSegmentIntersection]
    ([Geometry.h] is absent); "segment A–B crosses segment C–D at a
    point", written to [(x, y)] when it exists. *)
Definition computeSegmentIntersection_ref
    (xA yA xB yB xC yC xD yD : dbl) (xy : dbl * dbl) : bool * (dbl * dbl) :=
  let d := (xB - xA) * (yD - yC) - (yB - yA) * (xD - xC) in
  if d == 0 then (false, xy)
  else
    let t := ((xC - xA) * (yD - yC) - (yC - yA) * (xD - xC)) / d in
    let u := ((xC - xA) * (yB - yA) - (yC - yA) * (xB - xA)) / d in
    if (t <? 0) || (1 <? t) || (u <? 0) || (1 <? u) then (false, xy)
    else (true, (xA + t * (xB - xA), yA + t * (yB - yA))).

Definition planar_ref : Planar := {|
  isPointInTriangle := isPointInTriangle_ref;
  computeTriangleArea := computeTriangleArea_ref;
  computeSegmentIntersection := computeSegmentIntersection_ref
|}.

End Geometry.

(** ** The class [ContinuousScatterPlot] *)

(** [SimplexId] *)
Definition SimplexId : Type := Z.

Section Object.
Context {S : Scalar}.

(** The data members.  A pointer member is [None] when null; what the
    pointers [scalarMin_] and [scalarMax_] point to is a pair. *)
Record ContinuousScatterPlot : Type := {
  vertexNumber_ : SimplexId;
  withDummyValue_ : bool;
  dummyValue_ : dbl;
  resolutions_ : SimplexId * SimplexId;
  scalarMin_ : option (dbl * dbl);
  scalarMax_ : option (dbl * dbl);
  density_ : option (list (list dbl));
  validPointMask_ : option (list (list bool))
}.

(** A setter returns the status and the object after the call. *)
Definition setVertexNumber (this : ContinuousScatterPlot) (vertexNumber : SimplexId)
  : Z * ContinuousScatterPlot :=
  (0%Z,
   {| vertexNumber_ := vertexNumber;
      withDummyValue_ := withDummyValue_ this;
      dummyValue_ := dummyValue_ this;
      resolutions_ := resolutions_ this;
      scalarMin_ := scalarMin_ this;
      scalarMax_ := scalarMax_ this;
      density_ := density_ this;
      validPointMask_ := validPointMask_ this |}).

Definition setDummyValue (this : ContinuousScatterPlot)
    (withDummyValue : bool) (dummyValue : dbl) : Z * ContinuousScatterPlot :=
  let this' :=
    if withDummyValue then
      {| vertexNumber_ := vertexNumber_ this;
         withDummyValue_ := true;
         dummyValue_ := dummyValue;
         resolutions_ := resolutions_ this;
         scalarMin_ := scalarMin_ this;
         scalarMax_ := scalarMax_ this;
         density_ := density_ this;
         validPointMask_ := validPointMask_ this |}
    else this in
  (0%Z, this').

Definition setResolutions (this : ContinuousScatterPlot)
    (resolutionX resolutionY : SimplexId) : Z * ContinuousScatterPlot :=
  (0%Z,
   {| vertexNumber_ := vertexNumber_ this;
      withDummyValue_ := withDummyValue_ this;
      dummyValue_ := dummyValue_ this;
      resolutions_ := (resolutionX, resolutionY);
      scalarMin_ := scalarMin_ this;
      scalarMax_ := scalarMax_ this;
      density_ := density_ this;
      validPointMask_ := validPointMask_ this |}).

Definition setScalarMin (this : ContinuousScatterPlot)
    (scalarMin : option (dbl * dbl)) : Z * ContinuousScatterPlot :=
  (0%Z,
   {| vertexNumber_ := vertexNumber_ this;
      withDummyValue_ := withDummyValue_ this;
      dummyValue_ := dummyValue_ this;
      resolutions_ := resolutions_ this;
      scalarMin_ := scalarMin;
      scalarMax_ := scalarMax_ this;
      density_ := density_ this;
      validPointMask_ := validPointMask_ this |}).

Definition setScalarMax (this : ContinuousScatterPlot)
    (scalarMax : option (dbl * dbl)) : Z * ContinuousScatterPlot :=
  (0%Z,
   {| vertexNumber_ := vertexNumber_ this;
      withDummyValue_ := withDummyValue_ this;
      dummyValue_ := dummyValue_ this;
      resolutions_ := resolutions_ this;
      scalarMin_ := scalarMin_ this;
      scalarMax_ := scalarMax;
      density_ := density_ this;
      validPointMask_ := validPointMask_ this |}).

Definition setOutputDensity (this : ContinuousScatterPlot)
    (density : option (list (list dbl))) : Z * ContinuousScatterPlot :=
  (0%Z,
   {| vertexNumber_ := vertexNumber_ this;
      withDummyValue_ := withDummyValue_ this;
      dummyValue_ := dummyValue_ this;
      resolutions_ := resolutions_ this;
      scalarMin_ := scalarMin_ this;
      scalarMax_ := scalarMax_ this;
      density_ := density;
      validPointMask_ := validPointMask_ this |}).

Definition setOutputMask (this : ContinuousScatterPlot)
    (mask : option (list (list bool))) : Z * ContinuousScatterPlot :=
  (0%Z,
   {| vertexNumber_ := vertexNumber_ this;
      withDummyValue_ := withDummyValue_ this;
      dummyValue_ := dummyValue_ this;
      resolutions_ := resolutions_ this;
      scalarMin_ := scalarMin_ this;
      scalarMax_ := scalarMax_ this;
      density_ := density_ this;
      validPointMask_ := mask |}).

(** What the triangulation argument of [execute] is asked for. *)
Record Triangulation : Type := {
  getNumberOfCells : SimplexId;
  getCellVertexNumber : SimplexId -> SimplexId;
  getCellVertex : SimplexId -> idx4 -> SimplexId;
  getVertexPoint : SimplexId -> array3 flt
}.

End Object.

(** ** [ContinuousScatterPlot::execute] *)

Section Execute.
Context {S : Scalar} {G : Planar}.
Local Open Scope dbl_scope.

(** [std::array<SimplexId, 3>] *)
Definition Triangle : Type := array3 SimplexId.

(** [x[index[k]]] *)
Definition sel {A} (x : array4 A) (index : array4 idx4) (k : idx4) : A :=
  x.<<index.<<k>> >>.

Definition zero3 : vec := Arr3 0 0 0.

(** *** Cell loader: the loop [for(int k = 0; k < 4; ++k)] *)

Section Loader.
Variable this : ContinuousScatterPlot.
(** The scalar arrays, read as [double]. *)
Variables scalars1 scalars2 : SimplexId -> dbl.
Variable triangulation : Triangulation.

(** What the loop leaves behind when it runs to its end. *)
Record CellData : Type := {
  vertex : array4 SimplexId;
  data : array4 vec;
  position : array4 (array3 flt);
  localScalarMin : dbl * dbl;
  localScalarMax : dbl * dbl
}.

(** [data[k]] for the vertex [v = vertex[k]]. *)
Definition readData (v : SimplexId) : vec := Arr3 (scalars1 v) (scalars2 v) 0.

(** The test that sets [isDummy]. *)
Definition isDummyData (d : vec) : bool :=
  withDummyValue_ this
  && ((d.[X0] == dummyValue_ this) || (d.[X1] == dummyValue_ this)).

(** "get local stats"; [first] is [!k]. *)
Definition updateStats (first : bool) (d : vec)
    (st : (dbl * dbl) * (dbl * dbl)) : (dbl * dbl) * (dbl * dbl) :=
  let '((mn0, mn1), (mx0, mx1)) := st in
  ((if first || (d.[X0] <? mn0) then d.[X0] else mn0,
    if first || (d.[X1] <? mn1) then d.[X1] else mn1),
   (if first || (mx0 <? d.[X0]) then d.[X0] else mx0,
    if first || (mx1 <? d.[X1]) then d.[X1] else mx1)).

(** One turn of the loop; [None] is the [break] with [isDummy] set. *)
Definition loadVertex (cell : SimplexId) (k : idx4)
    (st : (dbl * dbl) * (dbl * dbl))
  : option (SimplexId * vec * array3 flt * ((dbl * dbl) * (dbl * dbl))) :=
  let v := getCellVertex triangulation cell k in
  let d := readData v in
  if isDummyData d then None
  else Some (v, d, getVertexPoint triangulation v,
             updateStats (idx4_eqb k K0) d st).

(** The four turns; [None] when the cell is a dummy one. *)
Definition loadCell (cell : SimplexId) : option CellData :=
  match loadVertex cell K0 ((0, 0), (0, 0)) with
  | None => None
  | Some (v0, d0, p0, st0) =>
  match loadVertex cell K1 st0 with
  | None => None
  | Some (v1, d1, p1, st1) =>
  match loadVertex cell K2 st1 with
  | None => None
  | Some (v2, d2, p2, st2) =>
  match loadVertex cell K3 st2 with
  | None => None
  | Some (v3, d3, p3, st3) =>
      Some {| vertex := Arr4 v0 v1 v2 v3;
              data := Arr4 d0 d1 d2 d3;
              position := Arr4 p0 p1 p2 p3;
              localScalarMin := fst st3;
              localScalarMax := snd st3 |}
  end end end end.
End Loader.

(** *** Gradient *)

(** [v12], [v13], [v14]: [position[j][k] - position[0][k]] for [j = 1, 2, 3]. *)
Definition edgeVector (position : array4 (array3 flt)) (j : idx4) : vec :=
  build3 (fun k => f_sub position.<<j>>.[k] position.<<K0>>.[k]).

(** [s12], [s13], [s14]: [data[j][k] - data[0][k]]. *)
Definition scalarDiff (data : array4 vec) (j : idx4) : vec :=
  build3 (fun k => data.<<j>>.[k] - data.<<K0>>.[k]).

(** [det = Geometry::dotProduct(v14, a)] with [a = v13 × v12]. *)
Definition det (position : array4 (array3 flt)) : dbl :=
  let v12 := edgeVector position K1 in
  let v13 := edgeVector position K2 in
  let v14 := edgeVector position K3 in
  let a := crossProduct v13 v12 in
  dotProduct v14 a.

(** The block that fills [g0] and [g1]. *)
Definition gradient (position : array4 (array3 flt)) (data : array4 vec)
  : vec * vec :=
  let v12 := edgeVector position K1 in
  let v13 := edgeVector position K2 in
  let v14 := edgeVector position K3 in
  let s12 := scalarDiff data K1 in
  let s13 := scalarDiff data K2 in
  let s14 := scalarDiff data K3 in
  let a := crossProduct v13 v12 in
  let b := crossProduct v12 v14 in
  let c := crossProduct v14 v13 in
  let det := dotProduct v14 a in
  if det == 0 then (zero3, zero3)
  else
    let invDet := 1 / det in
    (build3 (fun k =>
       (s14.[X0] * a.[k] + s13.[X0] * b.[k] + s12.[X0] * c.[k]) * invDet),
     build3 (fun k =>
       (s14.[X1] * a.[k] + s13.[X1] * b.[k] + s12.[X1] * c.[k]) * invDet)).

(** *** Volume: [volume] and the first value of [isLimit] *)

Definition volumeOf (g0 g1 : vec) : dbl := magnitude (crossProduct g0 g1).

(** *** Classification: [isInTriangle] and [index] *)

Definition classify (data : array4 vec) : bool * array4 idx4 :=
  if isPointInTriangle data.<<K0>> data.<<K1>> data.<<K2>> data.<<K3>> then
    (true, Arr4 K0 K1 K2 K3)
  else if isPointInTriangle data.<<K0>> data.<<K1>> data.<<K3>> data.<<K2>> then
    (true, Arr4 K0 K1 K3 K2)
  else if isPointInTriangle data.<<K0>> data.<<K2>> data.<<K3>> data.<<K1>> then
    (true, Arr4 K0 K2 K3 K1)
  else if isPointInTriangle data.<<K1>> data.<<K2>> data.<<K3>> data.<<K0>> then
    (true, Arr4 K1 K2 K3 K0)
  else
    (false, Arr4 K0 K1 K2 K3).

(** *** Projection *)

(** The locals of one iteration that reaches its end. *)
Record CellRecord : Type := {
  r_cell : CellData;
  r_g0 : vec;
  r_g1 : vec;
  r_volume : dbl;
  r_isLimit : bool;
  r_isInTriangle : bool;
  r_index : array4 idx4;
  r_massDensity : dbl;
  r_density : dbl;
  r_imaginaryPosition : vec;
  r_triangles : list Triangle
}.

(** What a branch of the projection computes: [isLimit], [index],
    [massDensity], [density], [imaginaryPosition], [triangles]. *)
Record Projection : Type := {
  p_isLimit : bool;
  p_index : array4 idx4;
  p_massDensity : dbl;
  p_density : dbl;
  p_imaginaryPosition : vec;
  p_triangles : list Triangle
}.

(** [A] of "class 0". *)
Definition baseArea (data : array4 vec) (index : array4 idx4) : dbl :=
  computeTriangleArea (sel data index K0) (sel data index K1) (sel data index K2).

(** "class 0": [isInTriangle] holds. *)
Definition projectInTriangle (c : CellData) (index : array4 idx4)
    (volume : dbl) (isLimit : bool) : Projection :=
  let A := baseArea (data c) index in
  let invA := 1 / A in
  let '(invA, isLimit) := if A == 0 then (0, true) else (invA, isLimit) in
  let alpha :=
    computeTriangleArea (sel (data c) index K1) (sel (data c) index K2)
                        (sel (data c) index K3) in
  let beta :=
    computeTriangleArea (sel (data c) index K0) (sel (data c) index K2)
                        (sel (data c) index K3) in
  let gamma :=
    computeTriangleArea (sel (data c) index K0) (sel (data c) index K1)
                        (sel (data c) index K3) in
  let alpha := alpha * invA in
  let beta := beta * invA in
  let gamma := gamma * invA in
  let p0 := build3 (fun k => f_val (sel (position c) index K3).[k]) in
  let p1 := build3 (fun k =>
    alpha * f_val (sel (position c) index K0).[k]
    + beta * f_val (sel (position c) index K1).[k]
    + gamma * f_val (sel (position c) index K2).[k]) in
  let massDensity := distance p0 p1 in
  let density := if isLimit then d_max else massDensity / volume in
  {| p_isLimit := isLimit;
     p_index := index;
     p_massDensity := massDensity;
     p_density := density;
     p_imaginaryPosition := zero3;
     p_triangles :=
       [ Arr3 (sel (vertex c) index K3) (sel (vertex c) index K0) (sel (vertex c) index K1);
         Arr3 (sel (vertex c) index K3) (sel (vertex c) index K0) (sel (vertex c) index K2);
         Arr3 (sel (vertex c) index K3) (sel (vertex c) index K1) (sel (vertex c) index K2) ] |}.

(** The chain of [computeSegmentIntersection] calls of "class 1": the new
    [index] and the contents of [p[0]], [p[1]]. *)
Definition crossing (d : array4 vec) (index : array4 idx4)
  : array4 idx4 * (dbl * dbl) :=
  let '(hit, p) :=
    computeSegmentIntersection
      d.<<K0>>.[X0] d.<<K0>>.[X1] d.<<K1>>.[X0] d.<<K1>>.[X1]
      d.<<K2>>.[X0] d.<<K2>>.[X1] d.<<K3>>.[X0] d.<<K3>>.[X1] (0, 0) in
  if hit then (Arr4 K0 K1 K2 K3, p)
  else
    let '(hit, p) :=
      computeSegmentIntersection
        d.<<K0>>.[X0] d.<<K0>>.[X1] d.<<K2>>.[X0] d.<<K2>>.[X1]
        d.<<K1>>.[X0] d.<<K1>>.[X1] d.<<K3>>.[X0] d.<<K3>>.[X1] p in
    if hit then (Arr4 K0 K2 K1 K3, p)
    else
      let '(hit, p) :=
        computeSegmentIntersection
          d.<<K0>>.[X0] d.<<K0>>.[X1] d.<<K3>>.[X0] d.<<K3>>.[X1]
          d.<<K1>>.[X0] d.<<K1>>.[X1] d.<<K2>>.[X0] d.<<K2>>.[X1] p in
      if hit then (Arr4 K0 K3 K1 K2, p)
      else (index, p).

(** "class 1": [isInTriangle] does not hold. *)
Definition projectQuad (c : CellData) (index : array4 idx4)
    (volume : dbl) (isLimit : bool) : Projection :=
  let '(index, (px, py)) := crossing (data c) index in
  let p := Arr3 px py 0 in
  let a := distance (sel (data c) index K0) p in
  let b := distance (sel (data c) index K0) (sel (data c) index K1) in
  let r0 := a / b in
  let a := distance (sel (data c) index K2) p in
  let b := distance (sel (data c) index K2) (sel (data c) index K3) in
  let r1 := a / b in
  let p0 := build3 (fun k =>
    f_val (sel (position c) index K0).[k]
    + r0 * f_sub (sel (position c) index K1).[k] (sel (position c) index K0).[k]) in
  let p1 := build3 (fun k =>
    f_val (sel (position c) index K2).[k]
    + r1 * f_sub (sel (position c) index K3).[k] (sel (position c) index K2).[k]) in
  let massDensity := distance p0 p1 in
  let density := if isLimit then d_max else massDensity / volume in
  {| p_isLimit := isLimit;
     p_index := index;
     p_massDensity := massDensity;
     p_density := density;
     p_imaginaryPosition := Arr3 px py 0;
     p_triangles :=
       [ Arr3 (-1)%Z (sel (vertex c) index K0) (sel (vertex c) index K2);
         Arr3 (-1)%Z (sel (vertex c) index K2) (sel (vertex c) index K1);
         Arr3 (-1)%Z (sel (vertex c) index K1) (sel (vertex c) index K3);
         Arr3 (-1)%Z (sel (vertex c) index K3) (sel (vertex c) index K0) ] |}.

(** The body of the loop over cells once the loader is through. *)
Definition processLoaded (c : CellData) : CellRecord :=
  let '(g0, g1) := gradient (position c) (data c) in
  let volume := volumeOf g0 g1 in
  let isLimit := volume == 0 in
  let '(isInTriangle, index) := classify (data c) in
  let pr :=
    if isInTriangle then projectInTriangle c index volume isLimit
    else projectQuad c index volume isLimit in
  {| r_cell := c;
     r_g0 := g0;
     r_g1 := g1;
     r_volume := volume;
     r_isLimit := p_isLimit pr;
     r_isInTriangle := isInTriangle;
     r_index := p_index pr;
     r_massDensity := p_massDensity pr;
     r_density := p_density pr;
     r_imaginaryPosition := p_imaginaryPosition pr;
     r_triangles := p_triangles pr |}.

(** One iteration of the loop over cells.  [triangles] is declared outside
    the loop: the iteration receives it and hands it on.  A dummy cell
    [continue]s before [triangles.clear()] and yields no record. *)
Definition processCell (this : ContinuousScatterPlot)
    (scalars1 scalars2 : SimplexId -> dbl) (triangulation : Triangulation)
    (triangles : list Triangle) (cell : SimplexId)
  : list Triangle * option CellRecord :=
  match loadCell this scalars1 scalars2 triangulation cell with
  | None => (triangles, None)
  | Some c =>
      let r := processLoaded c in
      (r_triangles r, Some r)
  end.

(** The loop [for(SimplexId cell = 0; cell < numberOfCells; ++cell)]. *)
Fixpoint cellLoop (this : ContinuousScatterPlot)
    (scalars1 scalars2 : SimplexId -> dbl) (triangulation : Triangulation)
    (count : nat) (cell : SimplexId) (triangles : list Triangle)
  : list Triangle * list (option CellRecord) :=
  match count with
  | O => (triangles, [])
  | Datatypes.S count =>
      let '(triangles, r) :=
        processCell this scalars1 scalars2 triangulation triangles cell in
      let '(triangles, rs) :=
        cellLoop this scalars1 scalars2 triangulation count (cell + 1)%Z triangles in
      (triangles, r :: rs)
  end.

(** [printErr] and [printMsg] calls. *)
Inductive Message : Type :=
| ErrNoCells
| ErrNoTetrahedra
| MsgProcessed (numberOfCells : SimplexId).

(** A run of [execute] that returns: the returned status, the messages
    printed, and for each iteration of the loop the record of its locals
    ([None] for a dummy cell).  The vector [triangles] is a local that the
    function drops when it returns (with OpenMP every thread works on a copy
    of its own), so a run does not hold it. *)
Record Run : Type := {
  status : Z;
  messages : list Message;
  cells : list (option CellRecord)
}.

Definition abort (code : Z) (msgs : list Message) : Run :=
  {| status := code; messages := msgs; cells := [] |}.

(** What a call of [execute] does: it returns, or it reads through a null
    pointer, which the language leaves undefined. *)
Inductive Outcome : Type :=
| Returned (run : Run)
| NullDereference.

(** [execute], with its checks compiled in: a null pointer argument is
    [None].  After the six checks the rendering helper [delta] reads
    [scalarMax_[0] - scalarMin_[0]] and [scalarMax_[1] - scalarMin_[1]]
    through the two pointer members, which no check covers.  The other
    rendering helpers ([d], [sampling], [epsilon]) are constants or computed
    from [delta] and [resolutions_] without a read through a pointer; like
    [delta] they are never read in this version ("Skip rendering"), and they
    are left out. *)
Definition execute (this : ContinuousScatterPlot)
    (scalars1 scalars2 : option (SimplexId -> dbl))
    (triangulation : option Triangulation) : Outcome :=
  match scalars1 with
  | None => Returned (abort (-1) [])
  | Some s1 =>
  match scalars2 with
  | None => Returned (abort (-2) [])
  | Some s2 =>
  match triangulation with
  | None => Returned (abort (-3) [])
  | Some tri =>
  match density_ this with
  | None => Returned (abort (-4) [])
  | Some _ =>
    if (getNumberOfCells tri <=? 0)%Z then Returned (abort (-5) [ErrNoCells])
    else if negb (getCellVertexNumber tri 0 =? 4)%Z
    then Returned (abort (-6) [ErrNoTetrahedra])
    else
      let numberOfCells := getNumberOfCells tri in
      match scalarMin_ this, scalarMax_ this with
      | Some scalarMin, Some scalarMax =>
          let delta :=
            (fst scalarMax - fst scalarMin, snd scalarMax - snd scalarMin) in
          let '(triangles, rs) :=
            cellLoop this s1 s2 tri (Z.to_nat numberOfCells) 0%Z [] in
          Returned {| status := 0;
                      messages := [MsgProcessed numberOfCells];
                      cells := rs |}
      | _, _ => NullDereference
      end
  end end end end.

End Execute.

(** ** Notions used to state the properties *)

Section Notions.
Context {S : Scalar} {G : Planar}.
Local Open Scope dbl_scope.

(** *** Classification by an order of apex candidates

    The classifier in the spec's words: the candidates for the apex are tried
    in a given order, each against the triangle of the other three vertices
    (taken in increasing order); the first success fixes the permutation
    [(i0, i1, i2, i3)] with the apex as [i3]. *)

Definition permutationFor (apex : idx4) : array4 idx4 :=
  match apex with
  | K0 => Arr4 K1 K2 K3 K0
  | K1 => Arr4 K0 K2 K3 K1
  | K2 => Arr4 K0 K1 K3 K2
  | K3 => Arr4 K0 K1 K2 K3
  end.

(** The apex [index[3]] lies inside the triangle [index[0..2]]. *)
Definition apexInside (data : array4 vec) (index : array4 idx4) : bool :=
  isPointInTriangle (sel data index K0) (sel data index K1)
                    (sel data index K2) (sel data index K3).

Fixpoint firstApex (data : array4 vec) (order : list idx4) : option idx4 :=
  match order with
  | [] => None
  | apex :: rest =>
      if apexInside data (permutationFor apex) then Some apex
      else firstApex data rest
  end.

Definition classifyInOrder (order : list idx4) (data : array4 vec)
  : bool * array4 idx4 :=
  match firstApex data order with
  | Some apex => (true, permutationFor apex)
  | None => (false, Arr4 K0 K1 K2 K3)
  end.

(** [index] holds each of 0, 1, 2, 3 once. *)
Definition isPermutation (index : array4 idx4) : bool :=
  forallb (fun k =>
             Nat.eqb 1 (length (filter (idx4_eqb k)
                [index.<<K0>>; index.<<K1>>; index.<<K2>>; index.<<K3>>])))
          [K0; K1; K2; K3].

(** *** Density *)

(** [x <= y] on [double]. *)
Definition d_leb (x y : dbl) : bool := (x <? y) || (x == y).

(** The density property in the spec's words: non-negative when the volume
    is positive, and the sentinel exactly when [isLimit] holds and the
    numerator [massDensity] is not zero. *)
Definition densityAsSpecified (r : CellRecord) : Prop :=
  ((0 <? r_volume r) = true -> d_leb 0 (r_density r) = true)
  /\ ((r_density r == d_max) = true
      <-> (r_isLimit r = true /\ (r_massDensity r == 0) = false)).

(** The property of a cell with four identical scalar pairs in the spec's
    words: the cell takes the InTriangle path with a base-triangle area that
    tests equal to zero, the [isLimit] branch sets the density to the
    sentinel or to 0, and the density is not a NaN (the one value that does
    not test equal to itself). *)
Definition identicalPairsAsSpecified (c : CellData) : Prop :=
  let r := processLoaded c in
  r_isInTriangle r = true
  /\ (baseArea (data c) (r_index r) == 0) = true
  /\ r_isLimit r = true
  /\ ((r_density r == d_max) = true \/ (r_density r == 0) = true)
  /\ (r_density r == r_density r) = true.

(** *** Preconditions of [execute] *)

Inductive Failure : Type :=
| AbsentScalars1
| AbsentScalars2
| AbsentTriangulation
| AbsentDensity
| ZeroCells
| NotTetrahedra.

Definition failureCode (f : Failure) : Z :=
  match f with
  | AbsentScalars1 => -1
  | AbsentScalars2 => -2
  | AbsentTriangulation => -3
  | AbsentDensity => -4
  | ZeroCells => -5
  | NotTetrahedra => -6
  end.

(** The messages that the check of a failure prints before it returns. *)
Definition failureMessages (f : Failure) : list Message :=
  match f with
  | ZeroCells => [ErrNoCells]
  | NotTetrahedra => [ErrNoTetrahedra]
  | _ => []
  end.

(** The precondition [f] does not hold of a call. *)
Definition violated (this : ContinuousScatterPlot)
    (scalars1 scalars2 : option (SimplexId -> dbl))
    (triangulation : option Triangulation) (f : Failure) : Prop :=
  match f with
  | AbsentScalars1 => scalars1 = None
  | AbsentScalars2 => scalars2 = None
  | AbsentTriangulation => triangulation = None
  | AbsentDensity => density_ this = None
  | ZeroCells =>
      exists t, triangulation = Some t /\ (getNumberOfCells t <= 0)%Z
  | NotTetrahedra =>
      exists t, triangulation = Some t /\ getCellVertexNumber t 0%Z <> 4%Z
  end.

(** *** Dummy cells *)

(** The dummy test of the loader on the vertex [k] of a cell. *)
Definition dummyAt (this : ContinuousScatterPlot)
    (scalars1 scalars2 : SimplexId -> dbl) (triangulation : Triangulation)
    (cell : SimplexId) (k : idx4) : bool :=
  isDummyData this
    (readData scalars1 scalars2 (getCellVertex triangulation cell k)).

(** *** Calls of [setDummyValue] in sequence *)

Definition setDummyValues (calls : list (bool * dbl))
    (this : ContinuousScatterPlot) : ContinuousScatterPlot :=
  fold_left (fun o call => snd (setDummyValue o (fst call) (snd call))) calls this.

End Notions.

(** *** Signed volume, in exact arithmetic *)

(** Modelled from the spec: "the signed tetrahedron volume" of the vertices
    [a b c d = position[0..3]], for which the source has no function; the
    formula [(a − d) · ((b − d) × (c − d)) / 6], positive when [d] sees
    [a b c] in clockwise order (the sign of the [orient3d] predicate). *)
Definition signedVolume (position : array4 (array3 R)) : R :=
  let diff (i : idx4) : array3 R :=
    build3 (fun k => position.<<i>>.[k] - position.<<K3>>.[k])%R in
  (dotProduct (S := Exact.scalar) (diff K0)
     (crossProduct (S := Exact.scalar) (diff K1) (diff K2)) / 6)%R.

(** *** Sign of a binary floating-point number *)

(** [x] is below zero: finite or infinite with the sign bit set; neither a
    zero nor a NaN. *)
Definition isNegative (x : spec_float) : bool :=
  match x with
  | S754_finite true _ _ | S754_infinity true => true
  | _ => false
  end.

(** *** The numbers that binary floating-point data stand for *)

(** [2 ^ e] for an integer [e]. *)
Definition pow2 (e : Z) : R :=
  match e with
  | Z0 => 1
  | Zpos p => IZR (Z.pow_pos 2 p)
  | Zneg p => / IZR (Z.pow_pos 2 p)
  end.

(** A finite datum of sign [s], mantissa [m] and exponent [e] stands for
    [m × 2^e], negated when [s] is set, and a zero stands for 0.  The
    infinities and NaN stand for no number; they are given 0. *)
Definition SF2R (x : spec_float) : R :=
  match x with
  | S754_finite s m e => ((if s then - IZR (Zpos m) else IZR (Zpos m)) * pow2 e)%R
  | _ => 0%R
  end.

(** The points that four [float] positions stand for. *)
Definition positionValues (position : array4 (array3 Ieee.single))
  : array4 (array3 R) :=
  let value (p : array3 Ieee.single) : array3 R :=
    Arr3 (SF2R p.[X0]) (SF2R p.[X1]) (SF2R p.[X2]) in
  Arr4 (value position.<<K0>>) (value position.<<K1>>)
       (value position.<<K2>>) (value position.<<K3>>).

(** The property of [det] in the spec's words, on the data of the source:
    the [double] that the solver computes from four [float] positions stands
    for six times the signed volume of the tetrahedron on the points that
    the positions stand for. *)
Definition detAsSpecified (position : array4 (array3 Ieee.single)) : Prop :=
  SF2R (Prim2SF (det (S := Ieee.scalar) position))
  = (6 * signedVolume (positionValues position))%R.

(** ** Sample inputs *)

Module Sample.

#[local] Existing Instance Ieee.scalar.

(** The predicates of the reference implementation, on binary64. *)
Definition planar : Planar := planar_ref.

Definition point (x y z : float) : array3 Ieee.single :=
  Arr3 (Ieee.to_single x) (Ieee.to_single y) (Ieee.to_single z).

(** Vertices 0..3 at (0,0,0), (1,0,0), (0,1,0), (0,0,1). *)
Definition unitPoints (v : SimplexId) : array3 Ieee.single :=
  match v with
  | 1%Z => point 1 0 0
  | 2%Z => point 0 1 0
  | 3%Z => point 0 0 1
  | _ => point 0 0 0
  end.

(** One tetrahedron, on the vertices 0, 1, 2, 3 in this order. *)
Definition unitTetra : Triangulation := {|
  getNumberOfCells := 1%Z;
  getCellVertexNumber := fun _ => 4%Z;
  getCellVertex := fun _ k => idx4_to_Z k;
  getVertexPoint := unitPoints
|}.

(** The same tetrahedron with its vertices listed as 1, 2, 3, 0. *)
Definition turnedTetra : Triangulation := {|
  getNumberOfCells := 1%Z;
  getCellVertexNumber := fun _ => 4%Z;
  getCellVertex := fun _ k =>
    match k with K0 => 1%Z | K1 => 2%Z | K2 => 3%Z | K3 => 0%Z end;
  getVertexPoint := unitPoints
|}.

(** A flat tetrahedron: the corners of the unit square in the plane z = 0. *)
Definition flatTetra : Triangulation := {|
  getNumberOfCells := 1%Z;
  getCellVertexNumber := fun _ => 4%Z;
  getCellVertex := fun _ k => idx4_to_Z k;
  getVertexPoint := fun v =>
    match v with
    | 1%Z => point 1 0 0
    | 2%Z => point 0 1 0
    | 3%Z => point 1 1 0
    | _ => point 0 0 0
    end
|}.

(** An object with an output buffer and no dummy value. *)
Definition plot : ContinuousScatterPlot := {|
  vertexNumber_ := 4%Z;
  withDummyValue_ := false;
  dummyValue_ := 0%float;
  resolutions_ := (16%Z, 16%Z);
  scalarMin_ := Some (0%float, 0%float);
  scalarMax_ := Some (1%float, 1%float);
  density_ := Some [];
  validPointMask_ := Some []
|}.

(** The same object after [setDummyValue(true, -1)]. *)
Definition plotDummy : ContinuousScatterPlot :=
  snd (setDummyValue plot true (-1)%float).

(** Scalar pairs (0,0), (1,0), (0,1), (0,0) at the vertices 0..3. *)
Definition field1 (v : SimplexId) : float :=
  match v with 1%Z => 1%float | _ => 0%float end.
Definition field2 (v : SimplexId) : float :=
  match v with 2%Z => 1%float | _ => 0%float end.

(** The constant pair (5,7). *)
Definition const1 (v : SimplexId) : float := 5%float.
Definition const2 (v : SimplexId) : float := 7%float.

(** [field1] with the dummy value at vertex 2. *)
Definition holed1 (v : SimplexId) : float :=
  match v with 2%Z => (-1)%float | _ => field1 v end.

(** Three tetrahedra on the vertices 0..4, with vertex 4 at (1,1,1): the
    cells 0 1 2 3, then 1 2 3 4, then 1 2 3 0. *)
Definition threeTetra : Triangulation := {|
  getNumberOfCells := 3%Z;
  getCellVertexNumber := fun _ => 4%Z;
  getCellVertex := fun cell k =>
    match cell with
    | 1%Z => (idx4_to_Z k + 1)%Z
    | 2%Z => match k with K0 => 1%Z | K1 => 2%Z | K2 => 3%Z | K3 => 0%Z end
    | _ => idx4_to_Z k
    end;
  getVertexPoint := fun v =>
    match v with
    | 4%Z => point 1 1 1
    | _ => unitPoints v
    end
|}.

(** [field1] with the dummy value at vertex 4. *)
Definition holed4 (v : SimplexId) : float :=
  match v with 4%Z => (-1)%float | _ => field1 v end.

(** The spec's scenario as the loader leaves it: the unit tetrahedron with
    the pairs (0,0), (1,0), (0,1), (0,0). *)
Definition scenario : CellData := {|
  vertex := Arr4 0%Z 1%Z 2%Z 3%Z;
  data := Arr4 (Arr3 0 0 0)%float (Arr3 1 0 0)%float
               (Arr3 0 1 0)%float (Arr3 0 0 0)%float;
  position := Arr4 (point 0 0 0) (point 1 0 0) (point 0 1 0) (point 0 0 1);
  localScalarMin := (0%float, 0%float);
  localScalarMax := (1%float, 1%float)
|}.

(** The constant field on the turned tetrahedron: the vertex found as apex,
    [vertex[3] = 0], lies at the origin. *)
Definition constantCell : CellData := {|
  vertex := Arr4 1%Z 2%Z 3%Z 0%Z;
  data := Arr4 (Arr3 5 7 0)%float (Arr3 5 7 0)%float
               (Arr3 5 7 0)%float (Arr3 5 7 0)%float;
  position := Arr4 (point 1 0 0) (point 0 1 0) (point 0 0 1) (point 0 0 0);
  localScalarMin := (5%float, 7%float);
  localScalarMax := (5%float, 7%float)
|}.

(** The field of the scenario on the flat tetrahedron. *)
Definition flatCell : CellData := {|
  vertex := Arr4 0%Z 1%Z 2%Z 3%Z;
  data := Arr4 (Arr3 0 0 0)%float (Arr3 1 0 0)%float
               (Arr3 0 1 0)%float (Arr3 0 0 0)%float;
  position := Arr4 (point 0 0 0) (point 1 0 0) (point 0 1 0) (point 1 1 0);
  localScalarMin := (0%float, 0%float);
  localScalarMax := (1%float, 1%float)
|}.

(** The scenario with its scalars scaled by [2^600]: products of two
    scalar differences overflow. *)
Definition hugeCell : CellData := {|
  vertex := Arr4 0%Z 1%Z 2%Z 3%Z;
  data := Arr4 (Arr3 0 0 0)%float (Arr3 0x1p+600 0 0)%float
               (Arr3 0 0x1p+600 0)%float (Arr3 0 0 0)%float;
  position := Arr4 (point 0 0 0) (point 1 0 0) (point 0 1 0) (point 0 0 1);
  localScalarMin := (0%float, 0%float);
  localScalarMax := (0x1p+600%float, 0x1p+600%float)
|}.

(** The pair (inf, 0) at the four vertices of the unit tetrahedron. *)
Definition infiniteCell : CellData := {|
  vertex := Arr4 0%Z 1%Z 2%Z 3%Z;
  data := Arr4 (Arr3 infinity 0 0)%float (Arr3 infinity 0 0)%float
               (Arr3 infinity 0 0)%float (Arr3 infinity 0 0)%float;
  position := Arr4 (point 0 0 0) (point 1 0 0) (point 0 1 0) (point 0 0 1);
  localScalarMin := (infinity, 0%float);
  localScalarMax := (infinity, 0%float)
|}.

(** Four [float] positions: (2^-30, 0, 0), which lies 2^-30 off the plane
    [y + z = x] of the other three, (1, 1, 0), (1, 0, 1) and (2, 1, 1). *)
Definition roundedTetra : array4 (array3 Ieee.single) :=
  Arr4 (point 0x1p-30 0 0) (point 1 1 0) (point 1 0 1) (point 2 1 1).

(** The unit tetrahedron and an affine field, over the real numbers. *)
Definition realPosition : array4 (array3 R) :=
  Arr4 (Arr3 0 0 0)%R (Arr3 1 0 0)%R (Arr3 0 1 0)%R (Arr3 0 0 1)%R.

Definition realData : array4 (array3 R) :=
  Arr4 (Arr3 1 2 0)%R (Arr3 3 2 0)%R (Arr3 1 5 0)%R (Arr3 4 4 0)%R.

End Sample.

(** ** Further notions *)

Section QuadNotions.
Context {S : Scalar} {G : Planar}.

(** [computeSegmentIntersection] on the segments [index[0]–index[1]] and
    [index[2]–index[3]] of the scalar pairs [d], with [p] in the reference
    arguments. *)
Definition segmentsCross (d : array4 vec) (index : array4 idx4) (p : dbl * dbl)
  : bool * (dbl * dbl) :=
  computeSegmentIntersection
    (sel d index K0).[X0] (sel d index K0).[X1]
    (sel d index K1).[X0] (sel d index K1).[X1]
    (sel d index K2).[X0] (sel d index K2).[X1]
    (sel d index K3).[X0] (sel d index K3).[X1] p.

(** The pairings of the four vertices into two segments, in the order in
    which "class 1" tries them. *)
Definition pairings : list (array4 idx4) :=
  [Arr4 K0 K1 K2 K3; Arr4 K0 K2 K1 K3; Arr4 K0 K3 K1 K2].

(** The pairings in the spec's words: they are tried in the order of a list,
    each test receiving in the reference arguments what the test before it
    left there; the first pairing reported to cross is kept, with the
    contents of the reference arguments after its test. *)
Fixpoint firstCrossing (d : array4 vec) (order : list (array4 idx4))
    (p : dbl * dbl) : option (array4 idx4) * (dbl * dbl) :=
  match order with
  | [] => (None, p)
  | index :: order =>
      let '(hit, p) := segmentsCross d index p in
      if hit then (Some index, p) else firstCrossing d order p
  end.

End QuadNotions.

(** The four values [a b c d] of one scalar lie between [lo] and [hi], which
    are two of them. *)
Definition spans (lo hi a b c d : R) : Prop :=
  (lo <= a /\ lo <= b /\ lo <= c /\ lo <= d)%R
  /\ (a <= hi /\ b <= hi /\ c <= hi /\ d <= hi)%R
  /\ (lo = a \/ lo = b \/ lo = c \/ lo = d)
  /\ (hi = a \/ hi = b \/ hi = c \/ hi = d).

(** The value at the point [x] of the affine field of offset [c] and
    gradient [g]. *)
Definition affineField (c : R) (g x : array3 R) : R :=
  (c + dotProduct (S := Exact.scalar) g x)%R.

(** ** [ttkContourAroundPoint]

    Source: [core/vtk/ttkContourAroundPoint/ttkContourAroundPoint.cpp].  The
    class declaration ([ttkContourAroundPoint.h]) is not among the sources:
    the element types of the member vectors and the conversions between the
    numeric types are parameters. *)

Section ContourAroundPoint.
Context {S : Scalar}.
Local Open Scope dbl_scope.

(** The numeric conversions, [float] operations and literals that
    [preconditionConstraints] uses, and the element types [iso] of [_isovals]
    and [crd] of [_coords] with the conversions that [push_back] applies. *)
Class Numerics : Type := {
  iso : Type;
  crd : Type;
  to_iso : dbl -> iso;
  to_crd : flt -> crd;
  (** [int] to [double] *)
  int_to_double : Z -> dbl;
  (** [x + y] and [x / 2] on [float] *)
  float_add : flt -> flt -> flt;
  float_half : flt -> flt;
  (** the literals [0.01] and [0.0001] *)
  lit_0_01 : dbl;
  lit_0_0001 : dbl
}.

Context {N : Numerics}.

Inductive CapMessage : Type :=
| ErrPointsNotFloat
| ErrNotPairs (maxNvPerC : Z)
| WarnMinMaxArc (c : Z)
| ErrSetupConstraints (errorCode : Z).

(** The members that [preconditionConstraints] reads and writes, with the
    messages printed so far. *)
Record ContourAroundPoint : Type := {
  ui_extension : dbl;
  ui_sizeFilter : dbl;
  _domainBbSize : dbl;
  _isovals : list iso;
  _coords : list crd;
  _flags : list Z;
  cap_log : list CapMessage
}.

(** What the call reads from its arguments [nodes] and [arcs]: a buffer that
    [getBuffer] does not find is [None]. *)
Record ConstraintInput : Type := {
  pointsAreFloat : bool;
  coords : Z -> flt;
  RegionSize : option (Z -> Z);
  CriticalType : option (Z -> Z);
  Scalar_ : option (Z -> flt);
  maxCellSize : Z;
  upNodeId : option (Z -> Z);
  downNodeId : option (Z -> Z);
  numberOfArcs : Z
}.

Definition minCode : Z := 0.
Definition maxCode : Z := 3.

(** [x >= y] on [double]. *)
Definition d_geb (x y : dbl) : bool := (y <? x) || (y == x).

(** [extVal * extFac + sadVal * sadFac], converted on [push_back]. *)
Definition isovalue (extFac sadFac : dbl) (extVal sadVal : flt) : iso :=
  to_iso (f_val extVal * extFac + f_val sadVal * sadFac).

(** The four [push_back]s for the point [n]. *)
Definition pushConstraint (this : ContourAroundPoint) (input : ConstraintInput)
    (isoval : iso) (n : Z) (flag : Z) : ContourAroundPoint :=
  {| ui_extension := ui_extension this;
     ui_sizeFilter := ui_sizeFilter this;
     _domainBbSize := _domainBbSize this;
     _isovals := _isovals this ++ [isoval];
     _coords := _coords this
                ++ [to_crd (coords input (n * 3 + 0)%Z);
                    to_crd (coords input (n * 3 + 1)%Z);
                    to_crd (coords input (n * 3 + 2)%Z)];
     _flags := _flags this ++ [flag];
     cap_log := cap_log this |}.

Definition logMessage (this : ContourAroundPoint) (m : CapMessage)
  : ContourAroundPoint :=
  {| ui_extension := ui_extension this;
     ui_sizeFilter := ui_sizeFilter this;
     _domainBbSize := _domainBbSize this;
     _isovals := _isovals this;
     _coords := _coords this;
     _flags := _flags this;
     cap_log := cap_log this ++ [m] |}.

(** [resize(0)] of the three vectors. *)
Definition clearConstraints (this : ContourAroundPoint) : ContourAroundPoint :=
  {| ui_extension := ui_extension this;
     ui_sizeFilter := ui_sizeFilter this;
     _domainBbSize := _domainBbSize this;
     _isovals := [];
     _coords := [];
     _flags := [];
     cap_log := cap_log this |}.

(** One iteration of the "loop over pairs", for the arc [c]. *)
Definition arcStep (input : ConstraintInput)
    (sizeBuf codeBuf : Z -> Z) (scalarBuf : Z -> flt) (c2p c2q : Z -> Z)
    (sadFac extFac minSize : dbl)
    (this : ContourAroundPoint) (c : Z) : ContourAroundPoint :=
  let p := c2p c in
  let q := c2q c in
  let pCode := codeBuf p in
  let qCode := codeBuf q in
  let pIsSad := negb (pCode =? minCode)%Z && negb (pCode =? maxCode)%Z in
  let qIsSad := negb (qCode =? minCode)%Z && negb (qCode =? maxCode)%Z in
  if pIsSad || qIsSad then
    if pIsSad && qIsSad then this
    else
      let ext := if pIsSad then q else p in
      let sad := if pIsSad then p else q in
      if int_to_double (sizeBuf ext) <? minSize then this
      else
        pushConstraint this input
          (isovalue extFac sadFac (scalarBuf ext) (scalarBuf sad))
          ext (if (codeBuf ext =? minCode)%Z then 0%Z else 1%Z)
  else
    let pVal := scalarBuf p in
    let qVal := scalarBuf q in
    let this := logMessage this (WarnMinMaxArc c) in
    let cVal := float_half (float_add pVal qVal) in
    let this :=
      if d_geb (int_to_double (sizeBuf p)) minSize then
        pushConstraint this input (isovalue extFac sadFac pVal cVal)
          p (if (pCode =? minCode)%Z then 0%Z else 1%Z)
      else this in
    if d_geb (int_to_double (sizeBuf q)) minSize then
      pushConstraint this input (isovalue extFac sadFac qVal cVal)
        q (if (qCode =? minCode)%Z then 0%Z else 1%Z)
    else this.

(** The loop [for(vtkIdType c = 0; c < nc; ++c)]. *)
Fixpoint arcLoop (step : ContourAroundPoint -> Z -> ContourAroundPoint)
    (count : nat) (c : Z) (this : ContourAroundPoint) : ContourAroundPoint :=
  match count with
  | O => this
  | Datatypes.S count => arcLoop step count (c + 1)%Z (step this c)
  end.

(** [preconditionConstraints]: the returned flag and the object after the
    call.  [ndebug] tells whether [NDEBUG] is defined; [setupConstraints] is
    the error code of [_wrappedModule.setupConstraints] on the three vectors
    and their size. *)
Definition preconditionConstraints (ndebug : bool)
    (setupConstraints : list crd -> list iso -> list Z -> nat -> Z)
    (this : ContourAroundPoint) (input : ConstraintInput)
  : bool * ContourAroundPoint :=
  if negb (pointsAreFloat input) then (false, logMessage this ErrPointsNotFloat)
  else
    match RegionSize input, CriticalType input, Scalar_ input with
    | Some sizeBuf, Some codeBuf, Some scalarBuf =>
        if negb ndebug && negb (maxCellSize input =? 2)%Z then
          (false, logMessage this (ErrNotPairs (maxCellSize input)))
        else
          match upNodeId input, downNodeId input with
          | Some c2p, Some c2q =>
              let sadFac := ui_extension this * lit_0_01 in
              let extFac := 1 - sadFac in
              let minSize := _domainBbSize this * ui_sizeFilter this * lit_0_0001 in
              let this := clearConstraints this in
              let nc := numberOfArcs input in
              let this :=
                arcLoop (arcStep input sizeBuf codeBuf scalarBuf c2p c2q
                                 sadFac extFac minSize)
                        (Z.to_nat nc) 0%Z this in
              let errorCode :=
                setupConstraints (_coords this) (_isovals this) (_flags this)
                                 (length (_isovals this)) in
              if (errorCode <? 0)%Z then
                (false, logMessage this (ErrSetupConstraints errorCode))
              else (true, this)
          | _, _ => (false, this)
          end
    | _, _, _ => (false, this)
    end.


(** *** The bounding-box size of [preprocessDomain] *)

(** [_domainBbSize] from [bounds = (xmin, xmax, ymin, ymax, zmin, zmax)]:
    the loop over [dim = 0, 1, 2]. *)
Definition domainBbSize (bounds : nat -> dbl) : dbl :=
  fold_left
    (fun size dim =>
       let range := bounds (dim * 2 + 1)%nat - bounds (dim * 2)%nat in
       size * (if range == 0 then 1 else range))
    [0%nat; 1%nat; 2%nat] 1.

End ContourAroundPoint.

(** *** The cell types of [postprocess] *)

(** [VTK_LINE] and [VTK_TRIANGLE] of [vtkCellType.h]. *)
Definition VTK_LINE : Z := 3.
Definition VTK_TRIANGLE : Z := 5.

(** The loop of [postprocess] that fills [ctypes] from [cinfosBuf], from the
    cell [c] on with [cinfoCounter] as it is: the types and the final
    [cinfoCounter], or [None] when the assertion on [nvOfCell] fails (it is
    checked unless [NDEBUG] is defined). *)
Fixpoint cellTypes (ndebug : bool) (cinfosBuf : Z -> Z) (count : nat)
    (cinfoCounter : Z) : option (list Z * Z) :=
  match count with
  | O => Some ([], cinfoCounter)
  | Datatypes.S count =>
      let nvOfCell := cinfosBuf cinfoCounter in
      if negb ndebug && negb ((2 <=? nvOfCell)%Z && (nvOfCell <=? 3)%Z) then None
      else
        match cellTypes ndebug cinfosBuf count (cinfoCounter + (nvOfCell + 1))%Z with
        | None => None
        | Some (ctypes, cinfosSize) =>
            Some ((if (nvOfCell =? 2)%Z then VTK_LINE else VTK_TRIANGLE) :: ctypes,
                  cinfosSize)
        end
  end.

(** A cell array laid out as the loop reads it: for each cell the number of
    its vertices, then their ids. *)
Definition cellInfos (cells : list (list Z)) : list Z :=
  flat_map (fun ids => Z.of_nat (length ids) :: ids) cells.

(** The buffer [cinfosBuf] that holds [l]. *)
Definition bufferOf (l : list Z) (i : Z) : Z := nth (Z.to_nat i) l 0%Z.

(** The checks of [preconditionConstraints] that come before its loop: one
    of them fails. *)
Definition rejectedEarly {S : Scalar} (ndebug : bool) (input : ConstraintInput) : bool :=
  negb (pointsAreFloat input)
  || match RegionSize input, CriticalType input, Scalar_ input with
     | Some _, Some _, Some _ => false
     | _, _, _ => true
     end
  || (negb ndebug && negb (maxCellSize input =? 2)%Z)
  || match upNodeId input, downNodeId input with
     | Some _, Some _ => false
     | _, _ => true
     end.

(** The type that [ctypes] gets for a cell of the vertices [ids]. *)
Definition cellTypeOf (ids : list Z) : Z :=
  if (Z.of_nat (length ids) =? 2)%Z then VTK_LINE else VTK_TRIANGLE.

(** *** The numeric parameters, in exact and in IEEE arithmetic *)

Module ExactContour.

(** Every numeric type is [R] and conversions change nothing: [iso], [crd],
    [to_iso], [to_crd], [int_to_double], [float_add], [float_half],
    [lit_0_01], [lit_0_0001] in this order. *)
Definition numerics : @Numerics Exact.scalar :=
  @Build_Numerics Exact.scalar R R (fun x => x) (fun x => x) IZR
    Rplus (fun x => (x / 2)%R) (/ 100)%R (/ 10000)%R.

End ExactContour.

Module IeeeContour.

(** [int] to [double]: exact. *)
Definition int_to_double (n : Z) : float :=
  match n with
  | Z0 => 0%float
  | Zpos _ => PrimFloat.of_uint63 (Uint63.of_Z n)
  | Zneg p => (- PrimFloat.of_uint63 (Uint63.of_Z (Zpos p)))%float
  end.

(** The [float] 2. *)
Definition single_two : Ieee.single := S754_finite false 8388608 (-22).

(** [_isovals] and [_coords] hold [float]s; [0.01] and [0.0001] are the
    nearest [double]s.  The fields are [iso], [crd], [to_iso], [to_crd],
    [int_to_double], [float_add], [float_half], [lit_0_01], [lit_0_0001]. *)
Definition numerics : @Numerics Ieee.scalar :=
  @Build_Numerics Ieee.scalar Ieee.single Ieee.single
    Ieee.to_single (fun x => x) int_to_double
    (SFadd Ieee.single_prec Ieee.single_emax)
    (fun x => SFdiv Ieee.single_prec Ieee.single_emax x single_two)
    0x1.47ae147ae147bp-7%float 0x1.a36e2eb1c432dp-14%float.

End IeeeContour.

Section ContourNotions.
Context {S : Scalar} {N : Numerics}.

(** The three coordinates that [pushConstraint] appends for the point [n]. *)
Definition pointCoords (input : ConstraintInput) (n : Z) : list crd :=
  [to_crd (coords input (n * 3 + 0)%Z);
   to_crd (coords input (n * 3 + 1)%Z);
   to_crd (coords input (n * 3 + 2)%Z)].

(** The vectors hold one constraint for each of the points [ns], in this
    order: its coordinates, and the flag 0 when its critical type is
    [minCode] and 1 otherwise. *)
Definition constraintsFor (input : ConstraintInput) (codeBuf : Z -> Z)
    (ns : list Z) (this : ContourAroundPoint) : Prop :=
  _coords this = flat_map (pointCoords input) ns
  /\ _flags this = map (fun n => if (codeBuf n =? minCode)%Z then 0%Z else 1%Z) ns
  /\ length (_isovals this) = length ns.

(** The point [n] is an extremum at an end of the arc [c]. *)
Definition extremumOfArc (codeBuf c2p c2q : Z -> Z) (c n : Z) : Prop :=
  (n = c2p c \/ n = c2q c)
  /\ (codeBuf n = minCode \/ codeBuf n = maxCode).

End ContourNotions.

(** ** Further sample inputs *)

Module SampleIeee.

#[local] Existing Instance Ieee.scalar.
#[local] Existing Instance IeeeContour.numerics.

(** Scalar pairs at the corners of the unit square, the diagonals 0–1 and
    2–3 crossing at (1/2, 1/2), on the unit tetrahedron. *)
Definition quadCell : @CellData Ieee.scalar := {|
  vertex := Arr4 0%Z 1%Z 2%Z 3%Z;
  data := Arr4 (Arr3 0 0 0)%float (Arr3 1 1 0)%float
               (Arr3 1 0 0)%float (Arr3 0 1 0)%float;
  position := Arr4 (Sample.point 0 0 0) (Sample.point 1 0 0)
                   (Sample.point 0 1 0) (Sample.point 0 0 1);
  localScalarMin := (0%float, 0%float);
  localScalarMax := (1%float, 1%float)
|}.

(** Scalar pairs round the unit square, the diagonals being 0–2 and 1–3:
    the segments 0–1 and 2–3 are opposite sides. *)
Definition squareCell : @CellData Ieee.scalar := {|
  vertex := Arr4 0%Z 1%Z 2%Z 3%Z;
  data := Arr4 (Arr3 0 0 0)%float (Arr3 1 0 0)%float
               (Arr3 1 1 0)%float (Arr3 0 1 0)%float;
  position := Arr4 (Sample.point 0 0 0) (Sample.point 1 0 0)
                   (Sample.point 0 1 0) (Sample.point 0 0 1);
  localScalarMin := (0%float, 0%float);
  localScalarMax := (1%float, 1%float)
|}.

(** [Sample.plot] after [setDummyValue(true, NaN)]. *)
Definition nanPlot : @ContinuousScatterPlot Ieee.scalar :=
  snd (setDummyValue Sample.plot true nan).

(** [float] of a small integer. *)
Definition single_of_Z (n : Z) : Ieee.single :=
  Ieee.to_single (IeeeContour.int_to_double n).

(** Nodes 0 (a minimum), 1 (a saddle), 2 (a maximum) and 3 (a saddle), with
    the scalars 0, 1, 2, 3 and region size 5, and the arcs 1–0, 1–3, 2–0. *)
Definition nodeTypes (n : Z) : Z :=
  match n with 0%Z => 0%Z | 2%Z => 3%Z | 1%Z => 1%Z | _ => 2%Z end.
Definition upNodes (c : Z) : Z := match c with 2%Z => 2%Z | _ => 1%Z end.
Definition downNodes (c : Z) : Z := match c with 1%Z => 3%Z | _ => 0%Z end.

Definition arcsInput : @ConstraintInput Ieee.scalar := {|
  pointsAreFloat := true;
  coords := single_of_Z;
  RegionSize := Some (fun _ => 5%Z);
  CriticalType := Some nodeTypes;
  Scalar_ := Some single_of_Z;
  maxCellSize := 2;
  upNodeId := Some upNodes;
  downNodeId := Some downNodes;
  numberOfArcs := 3
|}.

(** The same without the array "Scalar". *)
Definition arcsWithoutScalar : @ConstraintInput Ieee.scalar := {|
  pointsAreFloat := true;
  coords := single_of_Z;
  RegionSize := RegionSize arcsInput;
  CriticalType := CriticalType arcsInput;
  Scalar_ := None;
  maxCellSize := 2;
  upNodeId := upNodeId arcsInput;
  downNodeId := downNodeId arcsInput;
  numberOfArcs := 3
|}.

(** An object with an extension of 10 percent, no size filter, and one old
    constraint in its vectors. *)
Definition contour : @ContourAroundPoint Ieee.scalar IeeeContour.numerics := {|
  ui_extension := 10%float;
  ui_sizeFilter := 0%float;
  _domainBbSize := 1%float;
  _isovals := [single_of_Z 7];
  _coords := [single_of_Z 1; single_of_Z 2; single_of_Z 3];
  _flags := [1%Z];
  cap_log := []
|}.

(** A wrapped module that accepts every set of constraints. *)
Definition acceptAll (c : list Ieee.single) (i : list Ieee.single)
    (f : list Z) (np : nat) : Z := 0%Z.

End SampleIeee.

Module SampleExact.

#[local] Existing Instance Exact.scalar.
#[local] Existing Instance ExactContour.numerics.

(** The reference predicates on the real numbers. *)
Definition planar : @Planar Exact.scalar := @planar_ref Exact.scalar.

(** A cell whose vertices 1 and 2 lie at the same point. *)
Definition pinchedCell : @CellData Exact.scalar := {|
  vertex := Arr4 0%Z 1%Z 2%Z 3%Z;
  data := Sample.realData;
  position := Arr4 (Arr3 0 0 0)%R (Arr3 1 0 0)%R (Arr3 1 0 0)%R (Arr3 0 0 1)%R;
  localScalarMin := (1%R, 2%R);
  localScalarMax := (4%R, 5%R)
|}.

(** A cell on which the first scalar is 1 at every vertex. *)
Definition levelCell : @CellData Exact.scalar := {|
  vertex := Arr4 0%Z 1%Z 2%Z 3%Z;
  data := Arr4 (Arr3 1 2 0)%R (Arr3 1 3 0)%R (Arr3 1 5 0)%R (Arr3 1 4 0)%R;
  position := Sample.realPosition;
  localScalarMin := (1%R, 2%R);
  localScalarMax := (1%R, 5%R)
|}.

(** Nodes with the scalar [n] at the node [n], every node a minimum. *)
Definition arcsInput : @ConstraintInput Exact.scalar := {|
  pointsAreFloat := true;
  coords := IZR;
  RegionSize := Some (fun _ => 5%Z);
  CriticalType := Some (fun _ => 0%Z);
  Scalar_ := Some IZR;
  maxCellSize := 2;
  upNodeId := Some (fun c => c);
  downNodeId := Some (fun c => (c + 1)%Z);
  numberOfArcs := 1
|}.

Definition contour : @ContourAroundPoint Exact.scalar ExactContour.numerics := {|
  ui_extension := 50%R;
  ui_sizeFilter := 0%R;
  _domainBbSize := 1%R;
  _isovals := [];
  _coords := [];
  _flags := [];
  cap_log := []
|}.

End SampleExact.

(** * Properties *)

(** ** The setter [setDummyValue] *)

Section SetDummyValue.
Context {S : Scalar}.

Lemma setDummyValue_status (this : ContinuousScatterPlot) (b : bool) (x : dbl) :
  fst (setDummyValue this b x) = 0%Z.
Proof. reflexivity. Qed.

Lemma setDummyValue_true (this : ContinuousScatterPlot) (x : dbl) :
  withDummyValue_ (snd (setDummyValue this true x)) = true
  /\ dummyValue_ (snd (setDummyValue this true x)) = x.
Proof. split; reflexivity. Qed.

(** A call never clears the flag. *)
Lemma setDummyValue_keeps_mode (this : ContinuousScatterPlot) (b : bool) (x : dbl) :
  withDummyValue_ this = true ->
  withDummyValue_ (snd (setDummyValue this b x)) = true.
Proof. intros H; destruct b; [reflexivity | exact H]. Qed.

Lemma setDummyValues_keep_mode (calls : list (bool * dbl)) :
  forall this : ContinuousScatterPlot,
    withDummyValue_ this = true ->
    withDummyValue_ (setDummyValues calls this) = true.
Proof.
  induction calls as [| [b x] calls IH]; intros this H; simpl.
  - exact H.
  - apply IH. now apply setDummyValue_keeps_mode.
Qed.

(** C10. [setDummyValue(false, x)] returns 0 and leaves the object as it
    was, flag and dummy value included; a call with [true] sets the flag, and
    once the flag is set no sequence of calls of [setDummyValue] clears it. *)
Theorem setDummyValue_false_is_noop :
  forall (this : ContinuousScatterPlot) (x : dbl),
    setDummyValue this false x = (0%Z, this)
    /\ withDummyValue_ (snd (setDummyValue this true x)) = true
    /\ forall calls : list (bool * dbl),
         withDummyValue_
           (setDummyValues calls (snd (setDummyValue this true x))) = true.
Proof.
  intros this x. split; [reflexivity | split; [reflexivity |]].
  intros calls. now apply setDummyValues_keep_mode.
Qed.

End SetDummyValue.

(** ** Preconditions of [execute] *)

Section Preconditions.
Context {S : Scalar} {G : Planar}.

Lemma failureCode_injective (f g : Failure) :
  failureCode f = failureCode g -> f = g.
Proof. destruct f, g; simpl; intros H; try reflexivity; discriminate H. Qed.

Lemma failureCode_negative (f : Failure) : (failureCode f < 0)%Z.
Proof. destruct f; reflexivity. Qed.

Lemma cellLoop_length (this : ContinuousScatterPlot)
    (s1 s2 : SimplexId -> dbl) (t : Triangulation) (count : nat) :
  forall (cell : SimplexId) (triangles : list Triangle),
    length (snd (cellLoop this s1 s2 t count cell triangles)) = count.
Proof.
  induction count as [| count IH]; intros cell triangles; simpl.
  - reflexivity.
  - destruct (processCell this s1 s2 t triangles cell) as [ts r].
    specialize (IH (cell + 1)%Z ts).
    destruct (cellLoop this s1 s2 t count (cell + 1)%Z ts) as [ts' rs].
    simpl in *. now rewrite IH.
Qed.

(** The call returns the code of the first check that fails, and no cell is
    processed then; the pointer members [scalarMin_] and [scalarMax_] are
    not read. *)
Lemma execute_abort (this : ContinuousScatterPlot)
    (s1 s2 : option (SimplexId -> dbl)) (t : option Triangulation) :
  (exists f, violated this s1 s2 t f) ->
  exists f, violated this s1 s2 t f
            /\ execute this s1 s2 t
               = Returned (abort (failureCode f) (failureMessages f)).
Proof.
  intros Hex. unfold execute.
  destruct s1 as [a1 |]; [| exists AbsentScalars1; split; reflexivity].
  destruct s2 as [a2 |]; [| exists AbsentScalars2; split; reflexivity].
  destruct t as [tri |]; [| exists AbsentTriangulation; split; reflexivity].
  destruct (density_ this) as [buf |] eqn:Hd;
    [| exists AbsentDensity; split; [exact Hd | reflexivity]].
  destruct (Z.leb_spec (getNumberOfCells tri) 0%Z) as [Hn | Hn].
  { exists ZeroCells; split; [exists tri; split; [reflexivity | exact Hn] | reflexivity]. }
  destruct (Z.eqb_spec (getCellVertexNumber tri 0%Z) 4%Z) as [Hv | Hv]; simpl.
  - exfalso. destruct Hex as [f Hf].
    destruct f; simpl in Hf; try discriminate Hf; try congruence.
    + destruct Hf as (t' & Ht' & Hle). injection Ht' as <-. apply (Z.lt_irrefl 0%Z).
      eapply Z.lt_le_trans; eassumption.
    + destruct Hf as (t' & Ht' & Hne). injection Ht' as <-. contradiction.
  - exists NotTetrahedra; split; [exists tri; split; [reflexivity | exact Hv] | reflexivity].
Qed.

(** When the six checks pass, the call goes on to read [scalarMin_] and
    [scalarMax_], and runs the loop when both are set. *)
Lemma execute_checks_pass (this : ContinuousScatterPlot)
    (s1 s2 : option (SimplexId -> dbl)) (t : option Triangulation) :
  (forall f, ~ violated this s1 s2 t f) ->
  exists a1 a2 tri,
    s1 = Some a1 /\ s2 = Some a2 /\ t = Some tri
    /\ execute this s1 s2 t
       = match scalarMin_ this, scalarMax_ this with
         | Some _, Some _ =>
             Returned
               {| status := 0;
                  messages := [MsgProcessed (getNumberOfCells tri)];
                  cells := snd (cellLoop this a1 a2 tri
                                  (Z.to_nat (getNumberOfCells tri)) 0%Z []) |}
         | _, _ => NullDereference
         end.
Proof.
  intros Hok. unfold execute.
  destruct s1 as [a1 |]; [| exfalso; now apply (Hok AbsentScalars1)].
  destruct s2 as [a2 |]; [| exfalso; now apply (Hok AbsentScalars2)].
  destruct t as [tri |]; [| exfalso; now apply (Hok AbsentTriangulation)].
  destruct (density_ this) as [buf |] eqn:Hd;
    [| exfalso; now apply (Hok AbsentDensity)].
  exists a1, a2, tri. do 3 (split; [reflexivity |]).
  destruct (Z.leb_spec (getNumberOfCells tri) 0%Z) as [Hn | Hn].
  { exfalso. apply (Hok ZeroCells). exists tri. now split. }
  destruct (Z.eqb_spec (getCellVertexNumber tri 0%Z) 4%Z) as [Hv | Hv]; simpl.
  - destruct (scalarMin_ this) as [mn |]; [| reflexivity].
    destruct (scalarMax_ this) as [mx |]; [| reflexivity].
    destruct (cellLoop this a1 a2 tri (Z.to_nat (getNumberOfCells tri)) 0%Z [])
      as [ts rs].
    reflexivity.
  - exfalso. apply (Hok NotTetrahedra). exists tri. now split.
Qed.

Lemma execute_success (this : ContinuousScatterPlot)
    (s1 s2 : option (SimplexId -> dbl)) (t : option Triangulation) :
  (forall f, ~ violated this s1 s2 t f) ->
  scalarMin_ this <> None ->
  scalarMax_ this <> None ->
  exists run tri,
    execute this s1 s2 t = Returned run
    /\ t = Some tri
    /\ status run = 0%Z
    /\ messages run = [MsgProcessed (getNumberOfCells tri)]
    /\ length (cells run) = Z.to_nat (getNumberOfCells tri).
Proof.
  intros Hok Hmin Hmax.
  destruct (execute_checks_pass this s1 s2 t Hok)
    as (a1 & a2 & tri & _ & _ & Ht & Hrun).
  destruct (scalarMin_ this) as [mn |]; [| contradiction].
  destruct (scalarMax_ this) as [mx |]; [| contradiction].
  eexists. exists tri. split; [exact Hrun |].
  split; [exact Ht |]. split; [reflexivity |]. split; [reflexivity |].
  cbn [cells]. apply cellLoop_length.
Qed.

Lemma execute_null_dereference (this : ContinuousScatterPlot)
    (s1 s2 : option (SimplexId -> dbl)) (t : option Triangulation) :
  (forall f, ~ violated this s1 s2 t f) ->
  scalarMin_ this = None \/ scalarMax_ this = None ->
  execute this s1 s2 t = NullDereference.
Proof.
  intros Hok Hnull.
  destruct (execute_checks_pass this s1 s2 t Hok)
    as (a1 & a2 & tri & _ & _ & _ & Hrun).
  rewrite Hrun.
  destruct Hnull as [-> | ->]; [reflexivity |].
  now destruct (scalarMin_ this).
Qed.

(** The code of a failure that is the only one. *)
Lemma execute_single_failure (this : ContinuousScatterPlot)
    (s1 s2 : option (SimplexId -> dbl)) (t : option Triangulation) (f : Failure) :
  violated this s1 s2 t f ->
  (forall g, g <> f -> ~ violated this s1 s2 t g) ->
  execute this s1 s2 t = Returned (abort (failureCode f) (failureMessages f)).
Proof.
  intros Hf Honly.
  destruct (execute_abort this s1 s2 t (ex_intro _ f Hf)) as (g & Hg & Hrun).
  rewrite Hrun.
  destruct f, g; try reflexivity;
    exfalso; (eapply Honly; [| exact Hg]); discriminate.
Qed.

(** C9. The failure codes are negative and pairwise distinct; when a
    precondition of [execute] fails the call returns the code of a failing
    precondition and no cell was processed; a failure that is the only one
    is reported by its own code; when no precondition fails and the scalar
    bounds [scalarMin_] and [scalarMax_] have been set, the call returns 0
    and the loop ran over every cell; when no precondition fails and one of
    the two bounds is a null pointer, the call reads through it. *)
Theorem execute_preconditions :
  forall (this : ContinuousScatterPlot)
         (s1 s2 : option (SimplexId -> dbl)) (t : option Triangulation),
    let outcome := execute this s1 s2 t in
    (forall f g, failureCode f = failureCode g -> f = g)
    /\ (forall f, (failureCode f < 0)%Z)
    /\ ((exists f, violated this s1 s2 t f) ->
        exists f run, violated this s1 s2 t f
                      /\ outcome = Returned run
                      /\ status run = failureCode f
                      /\ cells run = [])
    /\ (forall f, violated this s1 s2 t f ->
                  (forall g, g <> f -> ~ violated this s1 s2 t g) ->
                  exists run, outcome = Returned run
                              /\ status run = failureCode f
                              /\ cells run = [])
    /\ ((forall f, ~ violated this s1 s2 t f) ->
        scalarMin_ this <> None ->
        scalarMax_ this <> None ->
        exists run tri,
          outcome = Returned run
          /\ status run = 0%Z
          /\ t = Some tri
          /\ length (cells run) = Z.to_nat (getNumberOfCells tri))
    /\ ((forall f, ~ violated this s1 s2 t f) ->
        scalarMin_ this = None \/ scalarMax_ this = None ->
        outcome = NullDereference).
Proof.
  intros this s1 s2 t outcome. subst outcome.
  split; [exact failureCode_injective |].
  split; [exact failureCode_negative |].
  split; [| split; [| split]].
  - intros Hex. destruct (execute_abort this s1 s2 t Hex) as (f & Hf & Hrun).
    exists f. eexists. split; [exact Hf |]. split; [exact Hrun |].
    split; reflexivity.
  - intros f Hf Honly. eexists.
    split; [exact (@execute_single_failure this s1 s2 t f Hf Honly) |]. split; reflexivity.
  - intros Hok Hmin Hmax.
    destruct (execute_success this s1 s2 t Hok Hmin Hmax)
      as (run & tri & Hrun & Ht & Hs & _ & Hl).
    exists run, tri. repeat split; assumption.
  - now apply execute_null_dereference.
Qed.

End Preconditions.

(** ** The loop over cells *)

Section Cells.
Context {S : Scalar} {G : Planar}.
Local Open Scope dbl_scope.

Variable this : ContinuousScatterPlot.
Variables s1 s2 : SimplexId -> dbl.
Variable t : Triangulation.

Lemma loadVertex_None (cell : SimplexId) (k : idx4)
    (st : (dbl * dbl) * (dbl * dbl)) :
  loadVertex this s1 s2 t cell k st = None <-> dummyAt this s1 s2 t cell k = true.
Proof.
  unfold loadVertex, dummyAt.
  destruct (isDummyData this (readData s1 s2 (getCellVertex t cell k)));
    split; intros H; try reflexivity; discriminate H.
Qed.

(** The loader gives up exactly on the cells with a dummy vertex. *)
Lemma loadCell_None (cell : SimplexId) :
  loadCell this s1 s2 t cell = None <-> exists k, dummyAt this s1 s2 t cell k = true.
Proof.
  unfold loadCell, loadVertex. fold (dummyAt this s1 s2 t cell K0) (dummyAt this s1 s2 t cell K1)
    (dummyAt this s1 s2 t cell K2) (dummyAt this s1 s2 t cell K3).
  destruct (dummyAt this s1 s2 t cell K0) eqn:H0; [split; [exists K0; exact H0 | reflexivity] |].
  destruct (dummyAt this s1 s2 t cell K1) eqn:H1; [split; [exists K1; exact H1 | reflexivity] |].
  destruct (dummyAt this s1 s2 t cell K2) eqn:H2; [split; [exists K2; exact H2 | reflexivity] |].
  destruct (dummyAt this s1 s2 t cell K3) eqn:H3; [split; [exists K3; exact H3 | reflexivity] |].
  split; [discriminate |].
  intros [k Hk]. destruct k; congruence.
Qed.

(** What the loader hands on is what it read. *)
Lemma loadCell_Some (cell : SimplexId) (c : CellData) :
  loadCell this s1 s2 t cell = Some c ->
  forall k, (vertex c).<<k>> = getCellVertex t cell k
            /\ (data c).<<k>> = readData s1 s2 (getCellVertex t cell k)
            /\ (position c).<<k>> = getVertexPoint t (getCellVertex t cell k).
Proof.
  unfold loadCell, loadVertex.
  destruct (isDummyData this (readData s1 s2 (getCellVertex t cell K0))); [discriminate |].
  destruct (isDummyData this (readData s1 s2 (getCellVertex t cell K1))); [discriminate |].
  destruct (isDummyData this (readData s1 s2 (getCellVertex t cell K2))); [discriminate |].
  destruct (isDummyData this (readData s1 s2 (getCellVertex t cell K3))); [discriminate |].
  intros H. injection H as <-. intros k. destruct k; repeat split.
Qed.

Lemma processCell_record (triangles : list Triangle) (cell : SimplexId) :
  snd (processCell this s1 s2 t triangles cell)
  = option_map processLoaded (loadCell this s1 s2 t cell).
Proof.
  unfold processCell. now destruct (loadCell this s1 s2 t cell).
Qed.

(** The records of the loop, cell after cell. *)
Lemma cellLoop_records (count : nat) :
  forall (cell : SimplexId) (triangles : list Triangle),
    snd (cellLoop this s1 s2 t count cell triangles)
    = map (fun i => option_map processLoaded
                      (loadCell this s1 s2 t (cell + Z.of_nat i)%Z))
          (seq 0 count).
Proof.
  induction count as [| count IH]; intros cell triangles.
  - reflexivity.
  - cbn [cellLoop].
    pose proof (processCell_record triangles cell) as Hr.
    destruct (processCell this s1 s2 t triangles cell) as [ts r].
    specialize (IH (cell + 1)%Z ts).
    destruct (cellLoop this s1 s2 t count (cell + 1)%Z ts) as [ts' rs].
    cbn [snd] in *. cbn [seq map]. rewrite Z.add_0_r. f_equal; [exact Hr |].
    rewrite IH, <- seq_shift, map_map.
    apply map_ext. intros i. now rewrite Nat2Z.inj_succ, <- Z.add_1_l, Z.add_assoc.
Qed.

(** C8. With the dummy-value mode on, a cell one of whose four vertices
    carries the dummy value in either scalar array is skipped: the loader
    yields nothing, the iteration produces no record (no gradient, no
    density, no triangle) and hands on the [triangles] it received. *)
Theorem dummy_cell_is_skipped :
  forall (triangles : list Triangle) (cell : SimplexId),
    withDummyValue_ this = true ->
    (exists k,
        (s1 (getCellVertex t cell k) == dummyValue_ this) = true
        \/ (s2 (getCellVertex t cell k) == dummyValue_ this) = true) ->
    loadCell this s1 s2 t cell = None
    /\ processCell this s1 s2 t triangles cell = (triangles, None).
Proof.
  intros triangles cell Hmode [k Hk].
  assert (Hload : loadCell this s1 s2 t cell = None).
  { apply loadCell_None. exists k. unfold dummyAt, isDummyData, readData.
    rewrite Hmode. cbn. destruct Hk as [Hk | Hk]; rewrite Hk;
      [reflexivity | apply orb_true_r]. }
  split; [exact Hload |]. unfold processCell. now rewrite Hload.
Qed.

(** A cell that is not skipped has no dummy vertex. *)
Lemma processed_cell_not_dummy (triangles : list Triangle) (cell : SimplexId)
    (r : CellRecord) :
  snd (processCell this s1 s2 t triangles cell) = Some r ->
  forall k, dummyAt this s1 s2 t cell k = false.
Proof.
  rewrite processCell_record. intros H k.
  destruct (dummyAt this s1 s2 t cell k) eqn:Hk; [| reflexivity].
  assert (Hnone : loadCell this s1 s2 t cell = None)
    by (apply loadCell_None; now exists k).
  rewrite Hnone in H. discriminate H.
Qed.

End Cells.

(** ** Classification and emitted triangles *)

Section Classification.
Context {S : Scalar} {G : Planar}.
Local Open Scope dbl_scope.

Lemma classify_in_source_order (data : array4 vec) :
  classify data = classifyInOrder [K3; K2; K1; K0] data.
Proof.
  destruct data as [d0 d1 d2 d3].
  unfold classify, classifyInOrder, firstApex, apexInside, permutationFor, sel.
  cbn [get4 a4_0 a4_1 a4_2 a4_3].
  destruct (isPointInTriangle d0 d1 d2 d3); [reflexivity |].
  destruct (isPointInTriangle d0 d1 d3 d2); [reflexivity |].
  destruct (isPointInTriangle d0 d2 d3 d1); [reflexivity |].
  destruct (isPointInTriangle d1 d2 d3 d0); reflexivity.
Qed.

Lemma firstApex_Some (data : array4 vec) (order : list idx4) (apex : idx4) :
  firstApex data order = Some apex ->
  In apex order /\ apexInside data (permutationFor apex) = true.
Proof.
  induction order as [| a order IH]; simpl; [discriminate |].
  destruct (apexInside data (permutationFor a)) eqn:Ha.
  - intros H. injection H as <-. split; [now left | exact Ha].
  - intros H. destruct (IH H) as [Hin Hap]. split; [now right | exact Hap].
Qed.

Lemma firstApex_None (data : array4 vec) (order : list idx4) :
  firstApex data order = None ->
  forall apex, In apex order -> apexInside data (permutationFor apex) = false.
Proof.
  induction order as [| a order IH]; simpl; [intros _ apex [] |].
  destruct (apexInside data (permutationFor a)) eqn:Ha; [discriminate |].
  intros H apex [<- | Hin]; [exact Ha | now apply IH].
Qed.

Lemma permutationFor_spec (apex : idx4) :
  (permutationFor apex).<<K3>> = apex /\ isPermutation (permutationFor apex) = true.
Proof. destruct apex; split; reflexivity. Qed.

(** The projection keeps the [index] of an InTriangle cell. *)
Lemma processLoaded_classification (c : CellData) :
  r_isInTriangle (processLoaded c) = fst (classify (data c))
  /\ (fst (classify (data c)) = true ->
      r_index (processLoaded c) = snd (classify (data c))).
Proof.
  unfold processLoaded.
  destruct (gradient (position c) (data c)) as [g0 g1].
  destruct (classify (data c)) as [[|] index]; cbn [fst snd].
  - split; [reflexivity |]. intros _. cbn [r_index].
    unfold projectInTriangle.
    now destruct (baseArea (data c) index == 0).
  - split; [reflexivity | discriminate].
Qed.

Lemma processLoaded_cell (c : CellData) : r_cell (processLoaded c) = c.
Proof.
  unfold processLoaded.
  destruct (gradient (position c) (data c)) as [g0 g1].
  now destruct (classify (data c)) as [b index].
Qed.

(** C1, as the source has it.  The containment tests run in the order:
    vertex 3 in the triangle of 0, 1, 2; then vertex 2 in 0, 1, 3; then
    vertex 1 in 0, 2, 3; then vertex 0 in 1, 2, 3.  The first success fixes
    [index], a permutation whose last entry is the apex, inside the triangle
    of the other three; when no test succeeds [isInTriangle] stays false and
    [index] is still [(0, 1, 2, 3)] when the projection starts.  The record
    of a cell carries this outcome. *)
Theorem classify_first_match :
  forall (c : CellData),
    classify (data c) = classifyInOrder [K3; K2; K1; K0] (data c)
    /\ r_isInTriangle (processLoaded c) = fst (classify (data c))
    /\ match classify (data c) with
       | (true, index) =>
           r_index (processLoaded c) = index
           /\ firstApex (data c) [K3; K2; K1; K0] = Some index.<<K3>>
           /\ index = permutationFor index.<<K3>>
           /\ isPermutation index = true
           /\ apexInside (data c) index = true
       | (false, index) =>
           index = Arr4 K0 K1 K2 K3
           /\ forall apex, apexInside (data c) (permutationFor apex) = false
       end.
Proof.
  intros c.
  pose proof (classify_in_source_order (data c)) as Hsrc.
  pose proof (processLoaded_classification c) as [Hin Hidx].
  split; [exact Hsrc |]. split; [exact Hin |].
  rewrite Hsrc in Hidx |- *. unfold classifyInOrder in *.
  destruct (firstApex (data c) [K3; K2; K1; K0]) as [apex |] eqn:Hfirst.
  - destruct (firstApex_Some _ _ Hfirst) as [_ Hap].
    destruct (permutationFor_spec apex) as [Hlast Hperm].
    rewrite Hlast. repeat split; try assumption.
    now apply Hidx.
  - split; [reflexivity |]. intros apex.
    apply (firstApex_None _ _ Hfirst). destruct apex; simpl; tauto.
Qed.

(** C7. An iteration over a cell that is not a dummy one selects one of
    the two cases and leaves in [triangles] exactly what it emitted: three
    triangles in the InTriangle case, four in the Quad case, each of these
    four with -1 in its first slot.  A dummy cell emits nothing. *)
Theorem emitted_triangle_count :
  forall (this : ContinuousScatterPlot) (s1 s2 : SimplexId -> dbl)
         (t : Triangulation) (triangles : list Triangle) (cell : SimplexId),
    match processCell this s1 s2 t triangles cell with
    | (ts, Some r) =>
        ts = r_triangles r
        /\ r_isInTriangle r = fst (classify (data (r_cell r)))
        /\ if r_isInTriangle r
           then length ts = 3%nat
                /\ Forall (fun tr : Triangle =>
                             tr.[X0] = sel (vertex (r_cell r)) (r_index r) K3) ts
           else length ts = 4%nat
                /\ Forall (fun tr : Triangle => tr.[X0] = (-1)%Z) ts
    | (ts, None) =>
        ts = triangles /\ exists k, dummyAt this s1 s2 t cell k = true
    end.
Proof.
  intros this s1 s2 t triangles cell. unfold processCell.
  destruct (loadCell this s1 s2 t cell) as [c |] eqn:Hload.
  - split; [reflexivity |]. rewrite processLoaded_cell.
    destruct (processLoaded_classification c) as [Hin _].
    split; [exact Hin |]. revert Hin. unfold processLoaded.
    destruct (gradient (position c) (data c)) as [g0 g1].
    destruct (classify (data c)) as [[|] index]; cbn [fst snd r_isInTriangle];
      intros _; cbn [r_triangles r_index r_cell].
    + unfold projectInTriangle.
      destruct (baseArea (data c) index == 0); cbn [p_triangles p_index];
        (split; [reflexivity | repeat constructor]).
    + unfold projectQuad.
      destruct (crossing (data c) index) as [index' [px py]].
      cbn [p_triangles]. split; [reflexivity | repeat constructor].
  - split; [reflexivity |]. now apply loadCell_None.
Qed.

End Classification.

(** ** Volume, limit and density *)

Section Density.
Context {S : Scalar} {G : Planar}.
Local Open Scope dbl_scope.

(** How a record is put together: volume, [isLimit], density. *)
Lemma processLoaded_density (c : CellData) :
  r_volume (processLoaded c) = volumeOf (r_g0 (processLoaded c)) (r_g1 (processLoaded c))
  /\ (r_g0 (processLoaded c), r_g1 (processLoaded c)) = gradient (position c) (data c)
  /\ r_isLimit (processLoaded c)
     = ((r_volume (processLoaded c) == 0)
        || (r_isInTriangle (processLoaded c)
            && (baseArea (data c) (r_index (processLoaded c)) == 0)))
  /\ r_density (processLoaded c)
     = (if r_isLimit (processLoaded c) then d_max
        else r_massDensity (processLoaded c) / r_volume (processLoaded c))
  /\ exists p0 p1, r_massDensity (processLoaded c) = distance p0 p1.
Proof.
  unfold processLoaded.
  destruct (gradient (position c) (data c)) as [g0 g1].
  destruct (classify (data c)) as [[|] index];
    cbn [r_volume r_g0 r_g1 r_isLimit r_isInTriangle r_index r_density r_massDensity].
  - unfold projectInTriangle.
    destruct (baseArea (data c) index == 0) eqn:HA;
      cbn [p_isLimit p_index p_density p_massDensity]; rewrite ?HA.
    + rewrite orb_true_r. repeat split; try reflexivity. eexists; eexists; reflexivity.
    + rewrite orb_false_r. repeat split; try reflexivity. eexists; eexists; reflexivity.
  - unfold projectQuad.
    destruct (crossing (data c) index) as [index' [px py]].
    cbn [p_isLimit p_index p_density p_massDensity]. rewrite orb_false_r.
    repeat split; try reflexivity. eexists; eexists; reflexivity.
Qed.

(** The branch [det == 0.], for any arithmetic in which the volume of two
    zero gradients tests equal to zero. *)
Lemma det_zero_branch (c : CellData) :
  (det (position c) == 0) = true ->
  (volumeOf zero3 zero3 == 0) = true ->
  r_g0 (processLoaded c) = zero3
  /\ r_g1 (processLoaded c) = zero3
  /\ r_volume (processLoaded c) = volumeOf zero3 zero3
  /\ r_isLimit (processLoaded c) = true
  /\ r_density (processLoaded c) = d_max.
Proof.
  intros Hdet Hvol.
  destruct (processLoaded_density c) as (Hv & Hg & Hl & Hd & _).
  assert (Hgrad : gradient (position c) (data c) = (zero3, zero3)).
  { unfold gradient. unfold det in Hdet. now rewrite Hdet. }
  rewrite Hgrad in Hg. injection Hg as Hg0 Hg1.
  rewrite Hg0, Hg1 in Hv.
  assert (Hlim : r_isLimit (processLoaded c) = true)
    by (rewrite Hl, Hv, Hvol; reflexivity).
  rewrite Hlim in Hd. repeat split; assumption.
Qed.

(** Four equal scalar pairs [d], when the point-in-triangle test accepts
    [d] in the triangle [d d d] and the area of that triangle tests equal
    to zero. *)
Lemma identical_pairs_branch (c : CellData) (d : vec) :
  (forall k, (data c).<<k>> = d) ->
  isPointInTriangle d d d d = true ->
  (computeTriangleArea d d d == 0) = true ->
  r_isInTriangle (processLoaded c) = true
  /\ r_index (processLoaded c) = Arr4 K0 K1 K2 K3
  /\ (baseArea (data c) (r_index (processLoaded c)) == 0) = true
  /\ r_isLimit (processLoaded c) = true
  /\ r_density (processLoaded c) = d_max.
Proof.
  intros Hd Hin HA.
  assert (Hcl : classify (data c) = (true, Arr4 K0 K1 K2 K3)).
  { unfold classify. now rewrite !Hd, Hin. }
  destruct (processLoaded_classification c) as [Hc Hi].
  rewrite Hcl in Hc, Hi. cbn [fst snd] in Hc, Hi. specialize (Hi eq_refl).
  assert (Hbase : (baseArea (data c) (r_index (processLoaded c)) == 0) = true).
  { rewrite Hi. unfold baseArea, sel. now rewrite !Hd. }
  destruct (processLoaded_density c) as (_ & _ & Hl & Hden & _).
  assert (Hlim : r_isLimit (processLoaded c) = true).
  { rewrite Hl, Hc, Hbase. apply orb_true_r. }
  rewrite Hlim in Hden. repeat split; assumption.
Qed.

End Density.

(** ** Properties in IEEE arithmetic *)

Section IeeeArithmetic.
#[local] Existing Instance Ieee.scalar.
Context {G : Planar}.

Lemma SFltb_zero (x : spec_float) :
  SFltb x (S754_zero false) = isNegative x.
Proof. destruct x as [s | s | | s m e]; try destruct s; reflexivity. Qed.

Lemma SFeqb_zero (x : spec_float) :
  SFeqb x (S754_zero false) = match x with S754_zero _ => true | _ => false end.
Proof. destruct x as [s | s | | s m e]; try destruct s; reflexivity. Qed.

(** Rounding keeps the sign it is given. *)
Lemma binary_round_aux_sign (s : bool) (m e : Z) (l : location) :
  isNegative (binary_round_aux prec emax s m e l) = true -> s = true.
Proof.
  destruct s; [reflexivity |]. unfold binary_round_aux.
  destruct (shr_fexp prec emax m e l) as [mrs' e'].
  destruct (shr_fexp prec emax _ e' loc_Exact) as [mrs'' e''].
  destruct (shr_m mrs'') as [| p | p]; try discriminate.
  match goal with |- context [if ?b then _ else _] => destruct b end; discriminate.
Qed.

Lemma SFsqrt_not_negative (x : spec_float) :
  isNegative (SFsqrt prec emax x) = false.
Proof.
  destruct x as [s | s | | s m e]; try destruct s; try reflexivity.
  unfold SFsqrt.
  destruct (SFsqrt_core_binary prec emax (Z.pos m) e) as [[mz ez] lz].
  destruct (isNegative (binary_round_aux prec emax false mz ez lz)) eqn:H;
    [| reflexivity].
  apply binary_round_aux_sign in H. discriminate H.
Qed.

Lemma SFdiv_not_negative (x y : spec_float) :
  isNegative x = false -> isNegative y = false ->
  SFeqb y (S754_zero false) = false ->
  isNegative (SFdiv prec emax x y) = false.
Proof.
  rewrite SFeqb_zero.
  destruct x as [sx | sx | | sx mx ex], y as [sy | sy | | sy my ey];
    try destruct sx; try destruct sy; simpl; intros Hx Hy Hz;
    try reflexivity; try discriminate.
  destruct (SFdiv_core_binary prec emax (Z.pos mx) ex (Z.pos my) ey) as [[mz ez] lz].
  destruct (isNegative (binary_round_aux prec emax false mz ez lz)) eqn:H;
    [| reflexivity].
  apply binary_round_aux_sign in H. discriminate H.
Qed.

(** A quotient of two square roots is never below zero in binary64. *)
Lemma sqrt_div_not_negative (a b : float) :
  PrimFloat.eqb (PrimFloat.sqrt b) 0 = false ->
  PrimFloat.ltb (PrimFloat.sqrt a / PrimFloat.sqrt b) 0 = false.
Proof.
  rewrite FloatAxioms.eqb_spec, ltb_spec, div_spec, !sqrt_spec.
  change (Prim2SF 0) with (S754_zero false).
  intros Hz. rewrite SFltb_zero.
  apply SFdiv_not_negative; [apply SFsqrt_not_negative .. | exact Hz].
Qed.

(** In binary64 the density of a record never compares below zero (it may
    be a NaN). *)
Lemma density_never_negative (c : CellData) :
  PrimFloat.ltb (r_density (processLoaded c)) 0 = false.
Proof.
  destruct (processLoaded_density c) as (Hv & _ & Hl & Hd & (p0 & p1 & Hm)).
  rewrite Hd. destruct (r_isLimit (processLoaded c)) eqn:Hlim.
  - reflexivity.
  - symmetry in Hl. apply orb_false_iff in Hl. destruct Hl as [Hz _].
    rewrite Hm. rewrite Hv in Hz |- *.
    apply sqrt_div_not_negative. exact Hz.
Qed.

(** C6. In binary64 arithmetic, a cell whose [det] compares equal to zero
    gets both gradients set to [(0, 0, 0)], the volume 0 and [isLimit]
    true; the iteration goes on to its end, with the density at the
    sentinel. *)
Theorem flat_tetrahedron_branch :
  forall c : CellData,
    PrimFloat.eqb (det (position c)) 0 = true ->
    r_g0 (processLoaded c) = zero3
    /\ r_g1 (processLoaded c) = zero3
    /\ r_volume (processLoaded c) = 0%float
    /\ r_isLimit (processLoaded c) = true
    /\ r_density (processLoaded c) = Ieee.DBL_MAX.
Proof.
  intros c Hdet. now apply (@det_zero_branch _ _ c Hdet).
Qed.

(** A [double] that is neither an infinity nor a NaN is a zero or a finite
    datum. *)
Lemma finite_cases (x : float) :
  PrimFloat.is_finite x = true ->
  match Prim2SF x with
  | S754_zero _ | S754_finite _ _ _ => True
  | _ => False
  end.
Proof.
  unfold PrimFloat.is_finite, PrimFloat.is_nan, PrimFloat.is_infinity.
  rewrite !FloatAxioms.eqb_spec, abs_spec.
  change (Prim2SF infinity) with (S754_infinity false).
  destruct (Prim2SF x) as [s | s | | s m e]; try exact (fun _ => I);
    try destruct s; intros H; discriminate H.
Qed.

(** [x - x] is [+0] for every such [x]. *)
Lemma sub_diag_finite (x : float) :
  PrimFloat.is_finite x = true -> (x - x)%float = 0%float.
Proof.
  intros H. apply finite_cases in H.
  rewrite <- (SF2Prim_Prim2SF (x - x)), sub_spec.
  destruct (Prim2SF x) as [s | s | | s m e]; try contradiction.
  - now destruct s.
  - unfold SF64sub, SFsub. rewrite Z.sub_diag. reflexivity.
Qed.

Lemma orient2d_diag (d : vec) :
  PrimFloat.is_finite d.[X0] = true ->
  PrimFloat.is_finite d.[X1] = true ->
  orient2d d d d = 0%float.
Proof.
  intros H0 H1. unfold orient2d. cbn [d_sub d_mul Ieee.scalar].
  rewrite (@sub_diag_finite _ H0), (@sub_diag_finite _ H1). reflexivity.
Qed.

(** The reference predicates on a triangle of three equal finite points:
    the point lies in it, and its area is zero. *)
Lemma reference_on_equal_points (d : vec) :
  PrimFloat.is_finite d.[X0] = true ->
  PrimFloat.is_finite d.[X1] = true ->
  isPointInTriangle_ref d d d d = true
  /\ PrimFloat.eqb (computeTriangleArea_ref d d d) 0 = true.
Proof.
  intros H0 H1. unfold isPointInTriangle_ref, computeTriangleArea_ref.
  rewrite (@orient2d_diag d H0 H1). split; reflexivity.
Qed.

(** C5. In binary64 arithmetic and with the reference predicates, a cell
    whose four vertices carry the same scalar pair [d] of two finite values
    (neither an infinity nor a NaN) takes the InTriangle path on the first
    test, with a base area that tests equal to zero; [isLimit] is set and
    the density is the sentinel, which is not a NaN. *)
Theorem identical_pairs_degenerate :
  forall (c : CellData) (d : vec),
    (forall k, (data c).<<k>> = d) ->
    PrimFloat.is_finite d.[X0] = true ->
    PrimFloat.is_finite d.[X1] = true ->
    let r := processLoaded (G := planar_ref) c in
    r_isInTriangle r = true
    /\ r_index r = Arr4 K0 K1 K2 K3
    /\ PrimFloat.eqb (baseArea (G := planar_ref) (data c) (r_index r)) 0 = true
    /\ r_isLimit r = true
    /\ r_density r = Ieee.DBL_MAX
    /\ PrimFloat.is_nan (r_density r) = false.
Proof.
  intros c d Hd H0 H1 r. subst r.
  destruct (@reference_on_equal_points d H0 H1) as [Hin HA].
  destruct (@identical_pairs_branch _ planar_ref c d Hd Hin HA)
    as (R1 & R2 & R3 & R4 & R5).
  repeat split; try assumption.
  change (@d_max Ieee.scalar) with Ieee.DBL_MAX in R5. now rewrite R5.
Qed.

End IeeeArithmetic.

(** ** Properties in exact arithmetic *)

Section ExactArithmetic.
#[local] Existing Instance Exact.scalar.
Context {G : Planar}.
Local Open Scope R_scope.

Lemma Reqb_true (x y : R) : Exact.Reqb x y = true <-> x = y.
Proof.
  unfold Exact.Reqb. destruct (Req_dec_T x y) as [E | N]; split; intros H;
    try assumption; try reflexivity; try discriminate H; contradiction.
Qed.

Lemma Reqb_false (x y : R) : Exact.Reqb x y = false <-> x <> y.
Proof.
  unfold Exact.Reqb. destruct (Req_dec_T x y) as [E | N]; split; intros H;
    try assumption; try reflexivity; try discriminate H; contradiction.
Qed.

Lemma DBL_MAX_pos : 0 < Exact.DBL_MAX.
Proof.
  unfold Exact.DBL_MAX. apply Rmult_lt_0_compat.
  - assert (H : / 2 ^ 52 <= 1).
    { rewrite <- Rinv_1. apply Rinv_le_contravar; [lra |]. apply pow_R1_Rle. lra. }
    lra.
  - apply pow_lt. lra.
Qed.

(** Unfolds the vector operations down to the arithmetic of [R]. *)
Ltac to_reals :=
  unfold det, gradient, signedVolume, edgeVector, scalarDiff, dotProduct,
    crossProduct, build3, zero3;
  cbn [get3 get4 a3_0 a3_1 a3_2 a4_0 a4_1 a4_2 a4_3
       d_add d_sub d_mul d_div d_zero d_one f_sub f_val d_eqb Exact.scalar].

(** C3. In exact arithmetic [det], the triple product [v14 · (v13 × v12)],
    is six times the signed volume of the tetrahedron [position[0..3]]. *)
Theorem det_is_six_signed_volumes :
  forall position : array4 (array3 R),
    det position = 6 * signedVolume position.
Proof.
  intros [[x0 y0 z0] [x1 y1 z1] [x2 y2 z2] [x3 y3 z3]].
  to_reals. simpl. field.
Qed.

(** The orientation that [signedVolume] counts as positive is the one in
    which [v12 · (v13 × v14)] is negative. *)
Lemma det_opposite_to_edge_triple (position : array4 (array3 R)) :
  det position
  = - dotProduct (edgeVector position K1)
        (crossProduct (edgeVector position K2) (edgeVector position K3)).
Proof.
  destruct position as [[x0 y0 z0] [x1 y1 z1] [x2 y2 z2] [x3 y3 z3]].
  to_reals. simpl. ring.
Qed.


(** The branch [det == 0.] in exact arithmetic. *)
Lemma flat_tetrahedron_branch_exact (c : CellData) :
  det (position c) = 0 ->
  r_g0 (processLoaded c) = zero3
  /\ r_g1 (processLoaded c) = zero3
  /\ r_volume (processLoaded c) = 0
  /\ r_isLimit (processLoaded c) = true.
Proof.
  intros Hdet.
  assert (Hvol : volumeOf zero3 zero3 = 0).
  { unfold volumeOf, magnitude. to_reals. simpl.
    replace (_ + _) with 0 by ring. apply sqrt_0. }
  destruct (@det_zero_branch _ _ c) as (H0 & H1 & H2 & H3 & _).
  - now apply Reqb_true.
  - rewrite Hvol. now apply Reqb_true.
  - rewrite Hvol in H2. repeat split; assumption.
Qed.

Lemma density_nonnegative (c : CellData) : 0 <= r_density (processLoaded c).
Proof.
  destruct (processLoaded_density c) as (Hv & _ & Hl & Hd & (p0 & p1 & Hm)).
  rewrite Hd. destruct (r_isLimit (processLoaded c)) eqn:Hlim.
  - left. exact DBL_MAX_pos.
  - symmetry in Hl. apply orb_false_iff in Hl. destruct Hl as [Hz _].
    apply Reqb_false in Hz.
    assert (Hvol : 0 <= r_volume (processLoaded c))
      by (rewrite Hv; apply sqrt_pos).
    assert (Hmass : 0 <= r_massDensity (processLoaded c))
      by (rewrite Hm; apply sqrt_pos).
    apply Rmult_le_pos; [exact Hmass |].
    left. apply Rinv_0_lt_compat.
    destruct Hvol as [Hlt | Heq]; [exact Hlt | now symmetry in Heq].
Qed.

End ExactArithmetic.

(** C2, as the source has it.  For every cell that is not a dummy one:
    [isLimit] holds exactly when the volume tests equal to zero or, in the
    InTriangle case, the base area does; the density is the sentinel whenever
    [isLimit] holds, whatever the numerator [massDensity], and
    [massDensity / volume] otherwise; the density is never negative: it is
    at least zero in exact arithmetic, and in binary64 it never compares
    below zero. *)
Theorem density_by_limit :
  (forall (S : Scalar) (G : Planar) (c : CellData),
      r_isLimit (processLoaded c)
      = (d_eqb (r_volume (processLoaded c)) d_zero
         || (r_isInTriangle (processLoaded c)
             && d_eqb (baseArea (data c) (r_index (processLoaded c))) d_zero))
      /\ r_density (processLoaded c)
         = (if r_isLimit (processLoaded c) then d_max
            else d_div (r_massDensity (processLoaded c)) (r_volume (processLoaded c))))
  /\ (forall (G : @Planar Exact.scalar) (c : @CellData Exact.scalar),
        (0 <= @r_density Exact.scalar (processLoaded c))%R)
  /\ (forall (G : @Planar Ieee.scalar) (c : @CellData Ieee.scalar),
        PrimFloat.ltb (@r_density Ieee.scalar (processLoaded c)) 0 = false).
Proof.
  split; [| split].
  - intros S G c. destruct (processLoaded_density c) as (_ & _ & Hl & Hd & _).
    split; assumption.
  - intros G c. apply density_nonnegative.
  - intros G c. apply density_never_negative.
Qed.

(** ** The properties on the sample inputs *)

Section IeeeSamples.
#[local] Existing Instance Ieee.scalar.
#[local] Existing Instance Sample.planar.

(** The sample cells are what the loader reads from the sample inputs. *)
Example samples_loaded :
  loadCell Sample.plot Sample.field1 Sample.field2 Sample.unitTetra 0%Z
  = Some Sample.scenario
  /\ loadCell Sample.plot Sample.const1 Sample.const2 Sample.turnedTetra 0%Z
    = Some Sample.constantCell
  /\ loadCell Sample.plot Sample.field1 Sample.field2 Sample.flatTetra 0%Z
    = Some Sample.flatCell.
Proof. repeat split. Qed.

(** The spec's scenario runs to status 0 with one InTriangle record whose
    apex is vertex 3. *)
Example scenario_run :
  match execute Sample.plot (Some Sample.field1) (Some Sample.field2)
                (Some Sample.unitTetra) with
  | Returned run =>
      status run = 0%Z
      /\ messages run = [MsgProcessed 1%Z]
      /\ map (option_map (fun r => (r_isInTriangle r, r_index r, r_density r,
                                     r_triangles r))) (cells run)
         = [Some (true, Arr4 K0 K1 K2 K3, 1%float,
                  [Arr3 3 0 1; Arr3 3 0 2; Arr3 3 1 2]%Z)]
  | NullDereference => False
  end.
Proof. vm_compute. repeat split. Qed.

Example no_output_buffer_run :
  execute (snd (setOutputDensity Sample.plot None))
          (Some Sample.field1) (Some Sample.field2)
          (Some Sample.unitTetra) = Returned (abort (-4) []).
Proof. reflexivity. Qed.

(** With the output buffer set and the lower scalar bound left null, the
    six checks pass and the call reads through the null pointer. *)
Example null_bound_run :
  execute (snd (setScalarMin Sample.plot None))
          (Some Sample.field1) (Some Sample.field2)
          (Some Sample.unitTetra) = NullDereference.
Proof. reflexivity. Qed.

(** A failing check returns before the bounds are read. *)
Example null_bound_and_no_mesh_run :
  execute (snd (setScalarMin Sample.plot None))
          (Some Sample.field1) (Some Sample.field2)
          None = Returned (abort (-3) []).
Proof. reflexivity. Qed.

(** On the scenario the source finds vertex 3 as the apex, where the order
    0, 1, 2, 3 of candidates finds vertex 0: both lie in the triangle of
    the other three, having the same scalar pair. *)
Lemma classify_not_in_order_0123 :
  classify (data Sample.scenario)
  <> classifyInOrder [K0; K1; K2; K3] (data Sample.scenario).
Proof. vm_compute. discriminate. Qed.

Example scenario_apexes :
  (snd (classify (data Sample.scenario))).<<K3>> = K3
  /\ (snd (classifyInOrder [K0; K1; K2; K3] (data Sample.scenario))).<<K3>> = K0.
Proof. vm_compute. split; reflexivity. Qed.

(** A constant field on a proper tetrahedron: [isLimit] holds, the
    numerator [massDensity] is zero, and the density is the sentinel. *)
Example constant_cell_values :
  r_isLimit (processLoaded Sample.constantCell) = true
  /\ r_massDensity (processLoaded Sample.constantCell) = 0%float
  /\ r_density (processLoaded Sample.constantCell) = Ieee.DBL_MAX
  /\ PrimFloat.eqb (det (position Sample.constantCell)) 0 = false.
Proof. vm_compute. repeat split. Qed.

(** With the reference predicates, binary64 overflow leaves an infinite
    volume and a NaN density: beyond exact arithmetic the density is only
    known not to be below zero. *)
Example huge_cell_values :
  r_volume (processLoaded Sample.hugeCell) = infinity
  /\ r_isLimit (processLoaded Sample.hugeCell) = false
  /\ PrimFloat.is_nan (r_density (processLoaded Sample.hugeCell)) = true.
Proof. vm_compute. repeat split. Qed.

Lemma constant_cell_density_not_as_specified :
  ~ densityAsSpecified (processLoaded Sample.constantCell).
Proof.
  intros [_ [Hsentinel _]].
  assert (E : d_eqb (r_density (processLoaded Sample.constantCell)) d_max = true)
    by (vm_compute; reflexivity).
  destruct (Hsentinel E) as [_ Hmass].
  vm_compute in Hmass. discriminate Hmass.
Qed.

Lemma identical_pairs_degenerate_witness :
  let r := processLoaded (G := planar_ref) Sample.constantCell in
  r_isInTriangle r = true
  /\ r_index r = Arr4 K0 K1 K2 K3
  /\ PrimFloat.eqb
       (baseArea (G := planar_ref) (data Sample.constantCell) (r_index r)) 0
     = true
  /\ r_isLimit r = true
  /\ r_density r = Ieee.DBL_MAX
  /\ PrimFloat.is_nan (r_density r) = false.
Proof.
  apply (@identical_pairs_degenerate Sample.constantCell
           (Arr3 5%float 7%float 0%float)).
  - intros k. destruct k; reflexivity.
  - reflexivity.
  - reflexivity.
Defined.

(** Four identical pairs (inf, 0): the differences of the first scalar are
    NaN, so are the gradient, the volume and the base area, no test sets
    [isLimit], and the density is the quotient of two NaN. *)
Example infinite_cell_values :
  let r := processLoaded Sample.infiniteCell in
  r_isInTriangle r = true
  /\ PrimFloat.is_nan (r_volume r) = true
  /\ PrimFloat.is_nan (baseArea (data Sample.infiniteCell) (r_index r)) = true
  /\ r_isLimit r = false
  /\ PrimFloat.is_nan (r_density r) = true.
Proof. vm_compute. repeat split. Qed.

Lemma infinite_pairs_not_as_specified :
  (forall k, (data Sample.infiniteCell).<<k>> = (Arr3 infinity 0 0)%float)
  /\ ~ identicalPairsAsSpecified Sample.infiniteCell.
Proof.
  split; [intros k; destruct k; reflexivity |].
  intros (_ & _ & Hlimit & _).
  vm_compute in Hlimit. discriminate Hlimit.
Qed.

(** On the four positions of [Sample.roundedTetra] the three [float]
    subtractions round to the edges (1, 1, 0), (1, 0, 1) and (2, 1, 1),
    which lie in one plane: the computed [det] is 0, where six times the
    signed volume of the four points is -2^-30. *)
Example rounded_tetra_values :
  det Sample.roundedTetra = 0%float
  /\ edgeVector Sample.roundedTetra K1 = (Arr3 1 1 0)%float
  /\ edgeVector Sample.roundedTetra K2 = (Arr3 1 0 1)%float
  /\ edgeVector Sample.roundedTetra K3 = (Arr3 2 1 1)%float.
Proof. vm_compute. repeat split. Qed.

Lemma rounded_tetra_data :
  Sample.roundedTetra
  = Arr4 (Arr3 (S754_finite false 8388608 (-53)) (S754_zero false)
               (S754_zero false))
         (Arr3 (S754_finite false 8388608 (-23))
               (S754_finite false 8388608 (-23)) (S754_zero false))
         (Arr3 (S754_finite false 8388608 (-23)) (S754_zero false)
               (S754_finite false 8388608 (-23)))
         (Arr3 (S754_finite false 8388608 (-22))
               (S754_finite false 8388608 (-23))
               (S754_finite false 8388608 (-23))).
Proof. vm_compute. reflexivity. Qed.

Ltac rounded_tetra_reals :=
  rewrite rounded_tetra_data;
  unfold signedVolume, positionValues, dotProduct, crossProduct, build3,
    SF2R, pow2;
  cbn [get3 get4 a3_0 a3_1 a3_2 a4_0 a4_1 a4_2 a4_3
       d_add d_sub d_mul Exact.scalar];
  change (Z.pow_pos 2 53) with 9007199254740992%Z;
  change (Z.pow_pos 2 23) with 8388608%Z;
  change (Z.pow_pos 2 22) with 4194304%Z.

Example rounded_tetra_volume :
  (6 * signedVolume (positionValues Sample.roundedTetra) = - / 1073741824)%R.
Proof. rounded_tetra_reals. lra. Qed.

Lemma rounded_det_not_as_specified :
  ~ detAsSpecified Sample.roundedTetra.
Proof.
  unfold detAsSpecified.
  assert (E : det Sample.roundedTetra = 0%float) by (vm_compute; reflexivity).
  rewrite E. change (Prim2SF 0) with (S754_zero false).
  rounded_tetra_reals. cbn [SF2R]. lra.
Qed.

Lemma flat_tetrahedron_branch_witness :
  r_g0 (processLoaded Sample.flatCell) = zero3
  /\ r_g1 (processLoaded Sample.flatCell) = zero3
  /\ r_volume (processLoaded Sample.flatCell) = 0%float
  /\ r_isLimit (processLoaded Sample.flatCell) = true
  /\ r_density (processLoaded Sample.flatCell) = Ieee.DBL_MAX.
Proof.
  apply (@flat_tetrahedron_branch Sample.planar Sample.flatCell).
  reflexivity.
Defined.

Lemma dummy_cell_is_skipped_witness :
  loadCell Sample.plotDummy Sample.holed1 Sample.field2 Sample.unitTetra 0%Z = None
  /\ processCell Sample.plotDummy Sample.holed1 Sample.field2 Sample.unitTetra
       [Arr3 7 8 9]%Z 0%Z
     = ([Arr3 7 8 9]%Z, None).
Proof.
  apply (@dummy_cell_is_skipped Ieee.scalar Sample.planar Sample.plotDummy
           Sample.holed1 Sample.field2 Sample.unitTetra [Arr3 7 8 9]%Z 0%Z).
  - reflexivity.
  - exists K2. left. reflexivity.
Defined.

End IeeeSamples.

Section ExactSamples.
#[local] Existing Instance Exact.scalar.
Local Open Scope R_scope.


End ExactSamples.

(** * Further properties *)

(** ** The loop over cells, continued *)

Section LoopMore.
Context {S : Scalar} {G : Planar}.
Local Open Scope dbl_scope.

(** X1. When the six checks pass and the scalar bounds are set, [execute]
    returns with, for every cell [i], the record that the loader and the
    body compute from that cell alone ([None] when the cell is skipped),
    whatever the iterations before it left in [triangles]: the records do
    not depend on the order of the iterations. *)
Theorem execute_records_per_cell :
  forall (this : ContinuousScatterPlot) (s1 s2 : SimplexId -> dbl) (t : Triangulation),
    density_ this <> None ->
    scalarMin_ this <> None ->
    scalarMax_ this <> None ->
    (0 < getNumberOfCells t)%Z ->
    getCellVertexNumber t 0%Z = 4%Z ->
    exists run,
      execute this (Some s1) (Some s2) (Some t) = Returned run
      /\ status run = 0%Z
      /\ cells run
         = map (fun i => option_map processLoaded
                           (loadCell this s1 s2 t (Z.of_nat i)))
               (seq 0 (Z.to_nat (getNumberOfCells t))).
Proof.
  intros this s1 s2 t Hd Hmin Hmax Hn Hv.
  assert (Hok : forall f, ~ violated this (Some s1) (Some s2) (Some t) f).
  { intros f Hf. destruct f; simpl in Hf; try discriminate Hf.
    - contradiction.
    - destruct Hf as (t' & Ht' & Hle). injection Ht' as <-.
      apply (Z.lt_irrefl 0%Z). eapply Z.lt_le_trans; eassumption.
    - destruct Hf as (t' & Ht' & Hne). injection Ht' as <-. contradiction. }
  destruct (execute_checks_pass this (Some s1) (Some s2) (Some t) Hok)
    as (a1 & a2 & tri & E1 & E2 & Et & Hrun).
  injection E1 as <-. injection E2 as <-. injection Et as <-.
  destruct (scalarMin_ this) as [mn |]; [| contradiction].
  destruct (scalarMax_ this) as [mx |]; [| contradiction].
  eexists. split; [exact Hrun |]. split; [reflexivity |]. cbn [cells].
  rewrite cellLoop_records. apply map_ext. intros i. now rewrite Z.add_0_l.
Qed.

(** X2. An iteration skips its cell exactly when the dummy-value mode is on
    and one of the four vertices carries the dummy value in [scalars1] or in
    [scalars2]; every other cell gets a record. *)
Theorem cell_skipped_iff :
  forall (this : ContinuousScatterPlot) (s1 s2 : SimplexId -> dbl)
         (t : Triangulation) (triangles : list Triangle) (cell : SimplexId),
    snd (processCell this s1 s2 t triangles cell) = None
    <-> (withDummyValue_ this = true
         /\ exists k,
              (s1 (getCellVertex t cell k) == dummyValue_ this) = true
              \/ (s2 (getCellVertex t cell k) == dummyValue_ this) = true).
Proof.
  intros this s1 s2 t triangles cell.
  rewrite processCell_record.
  assert (Hmap : option_map processLoaded (loadCell this s1 s2 t cell) = None
                 <-> loadCell this s1 s2 t cell = None).
  { destruct (loadCell this s1 s2 t cell); split; intros H; try reflexivity; discriminate H. }
  rewrite Hmap, loadCell_None. unfold dummyAt, isDummyData, readData. cbn [get3 a3_0 a3_1].
  split.
  - intros [k Hk]. apply andb_true_iff in Hk. destruct Hk as [Hm Hk].
    split; [exact Hm |]. exists k. now apply orb_true_iff in Hk.
  - intros [Hm [k Hk]]. exists k. rewrite Hm. cbn [andb]. now apply orb_true_iff.
Qed.

End LoopMore.

(** ** The Quad case and the emitted triangles *)

Section QuadMore.
Context {S : Scalar} {G : Planar}.
Local Open Scope dbl_scope.

Lemma classify_quad (d : array4 vec) (index : array4 idx4) :
  classify d = (false, index) -> index = Arr4 K0 K1 K2 K3.
Proof.
  unfold classify.
  repeat match goal with
         | |- context [if ?b then _ else _] => destruct b; [discriminate |]
         end.
  intros H. now injection H.
Qed.

(** What the chain of intersection tests leaves: the pairing that was
    reported to cross, with the crossing point, or the first pairing when none
    was. *)
Lemma crossing_outcome (d : array4 vec) :
  let index := fst (crossing d (Arr4 K0 K1 K2 K3)) in
  let p := snd (crossing d (Arr4 K0 K1 K2 K3)) in
  In index pairings
  /\ ((exists p0, segmentsCross d index p0 = (true, p))
      \/ (index = Arr4 K0 K1 K2 K3
          /\ forall index', In index' pairings ->
                            exists p0, fst (segmentsCross d index' p0) = false)).
Proof.
  destruct d as [d0 d1 d2 d3].
  unfold crossing, segmentsCross, sel, pairings. cbn [get4 a4_0 a4_1 a4_2 a4_3].
  destruct (computeSegmentIntersection
              d0.[X0] d0.[X1] d1.[X0] d1.[X1] d2.[X0] d2.[X1] d3.[X0] d3.[X1]
              (d_zero, d_zero)) as [[|] p1] eqn:H1.
  { cbn [fst snd get4 a4_0 a4_1 a4_2 a4_3]. split; [now left |]. left.
    exists (d_zero, d_zero). exact H1. }
  destruct (computeSegmentIntersection
              d0.[X0] d0.[X1] d2.[X0] d2.[X1] d1.[X0] d1.[X1] d3.[X0] d3.[X1] p1)
    as [[|] p2] eqn:H2.
  { cbn [fst snd get4 a4_0 a4_1 a4_2 a4_3]. split; [right; now left |]. left.
    exists p1. exact H2. }
  destruct (computeSegmentIntersection
              d0.[X0] d0.[X1] d3.[X0] d3.[X1] d1.[X0] d1.[X1] d2.[X0] d2.[X1] p2)
    as [[|] p3] eqn:H3.
  { cbn [fst snd get4 a4_0 a4_1 a4_2 a4_3]. split; [right; right; now left |]. left.
    exists p2. exact H3. }
  cbn [fst snd get4 a4_0 a4_1 a4_2 a4_3]. split; [now left |]. right.
  split; [reflexivity |].
  intros index' [<- | [<- | [<- | []]]]; cbn [get4 a4_0 a4_1 a4_2 a4_3].
  - exists (d_zero, d_zero). now rewrite H1.
  - exists p1. now rewrite H2.
  - exists p2. now rewrite H3.
Qed.

Lemma pairings_are_permutations (index : array4 idx4) :
  In index pairings -> isPermutation index = true /\ index.<<K0>> = K0.
Proof. intros [<- | [<- | [<- | []]]]; split; reflexivity. Qed.

Lemma processLoaded_quad (c : CellData) :
  r_isInTriangle (processLoaded c) = false ->
  r_index (processLoaded c) = fst (crossing (data c) (Arr4 K0 K1 K2 K3))
  /\ r_imaginaryPosition (processLoaded c)
     = Arr3 (fst (snd (crossing (data c) (Arr4 K0 K1 K2 K3))))
            (snd (snd (crossing (data c) (Arr4 K0 K1 K2 K3)))) d_zero
  /\ r_triangles (processLoaded c)
     = (let index := fst (crossing (data c) (Arr4 K0 K1 K2 K3)) in
        [ Arr3 (-1)%Z (sel (vertex c) index K0) (sel (vertex c) index K2);
          Arr3 (-1)%Z (sel (vertex c) index K2) (sel (vertex c) index K1);
          Arr3 (-1)%Z (sel (vertex c) index K1) (sel (vertex c) index K3);
          Arr3 (-1)%Z (sel (vertex c) index K3) (sel (vertex c) index K0) ]).
Proof.
  unfold processLoaded.
  destruct (gradient (position c) (data c)) as [g0 g1].
  destruct (classify (data c)) as [[|] index] eqn:Hcl; cbn [r_isInTriangle];
    [discriminate |].
  intros _. apply classify_quad in Hcl. subst index.
  cbn [r_index r_imaginaryPosition r_triangles]. unfold projectQuad.
  destruct (crossing (data c) (Arr4 K0 K1 K2 K3)) as [index [px py]].
  cbn [p_index p_imaginaryPosition p_triangles fst snd]. repeat split.
Qed.

(** The chain of intersection tests is the search for the first crossing
    pairing in the order of [pairings], started on [p = (0, 0)]. *)
Lemma crossing_first (d : array4 vec) (index : array4 idx4) :
  crossing d index
  = match firstCrossing d pairings (d_zero, d_zero) with
    | (Some found, p) => (found, p)
    | (None, p) => (index, p)
    end.
Proof.
  destruct d as [d0 d1 d2 d3].
  unfold crossing, firstCrossing, segmentsCross, sel, pairings.
  cbn [get4 a4_0 a4_1 a4_2 a4_3].
  repeat match goal with
         | |- context [computeSegmentIntersection ?a ?b ?c ?d ?e ?f ?g ?h ?p] =>
             destruct (computeSegmentIntersection a b c d e f g h p) as [[|] ?];
             try reflexivity
         end.
Qed.

(** The pairing that a search finds comes after pairings that were all
    reported not to cross, each tested on what the test before it left. *)
Lemma firstCrossing_Some (d : array4 vec) (order : list (array4 idx4)) :
  forall (p q : dbl * dbl) (found : array4 idx4),
    firstCrossing d order p = (Some found, q) ->
    exists before after p0,
      order = before ++ found :: after
      /\ firstCrossing d before p = (None, p0)
      /\ segmentsCross d found p0 = (true, q).
Proof.
  induction order as [| index order IH]; intros p q found H; simpl in H.
  - discriminate H.
  - destruct (segmentsCross d index p) as [[|] p1] eqn:Hc.
    + injection H as <- <-. exists [], order, p. repeat split. exact Hc.
    + destruct (IH p1 q found H) as (before & after & p0 & -> & Hb & Hf).
      exists (index :: before), after, p0. split; [reflexivity |].
      split; [| exact Hf]. simpl. now rewrite Hc.
Qed.

(** A search that finds nothing has seen every pairing reported not to
    cross. *)
Lemma firstCrossing_None (d : array4 vec) (order : list (array4 idx4)) :
  forall p q : dbl * dbl,
    firstCrossing d order p = (None, q) ->
    forall index, In index order ->
                  exists p0, fst (segmentsCross d index p0) = false.
Proof.
  induction order as [| index order IH]; intros p q H index' Hin; simpl in H.
  - destruct Hin.
  - destruct (segmentsCross d index p) as [[|] p1] eqn:Hc; [discriminate H |].
    destruct Hin as [<- | Hin].
    + exists p. now rewrite Hc.
    + now apply (IH p1 q H).
Qed.

(** X8. In the Quad case the three pairings 0–1|2–3, 0–2|1–3, 0–3|1–2 are
    tried in this order, the first test on [p = (0, 0)] and each later test
    on what the test before it left in [p]: [index] is the first pairing
    that [computeSegmentIntersection] reported to cross, every pairing
    before it having been reported not to cross, and the synthetic vertex is
    the point that this test returned, with third coordinate 0; when no
    pairing was reported to cross, [index] is [(0, 1, 2, 3)] and the
    synthetic vertex is what the third test left in [p].  [index] is a
    permutation that starts with vertex 0, and the four triangles go round
    the cycle [index[0], index[2], index[1], index[3]]. *)
Theorem quad_case_outcome :
  forall c : CellData,
    r_isInTriangle (processLoaded c) = false ->
    let r := processLoaded c in
    let p := ((r_imaginaryPosition r).[X0], (r_imaginaryPosition r).[X1]) in
    In (r_index r) pairings
    /\ isPermutation (r_index r) = true
    /\ (r_imaginaryPosition r).[X2] = d_zero
    /\ (r_index r, p)
       = match firstCrossing (data c) pairings (d_zero, d_zero) with
         | (Some found, q) => (found, q)
         | (None, q) => (Arr4 K0 K1 K2 K3, q)
         end
    /\ ((exists before after p0,
            pairings = before ++ r_index r :: after
            /\ firstCrossing (data c) before (d_zero, d_zero) = (None, p0)
            /\ (forall index', In index' before ->
                   exists p', fst (segmentsCross (data c) index' p') = false)
            /\ segmentsCross (data c) (r_index r) p0 = (true, p))
        \/ (r_index r = Arr4 K0 K1 K2 K3
            /\ firstCrossing (data c) pairings (d_zero, d_zero) = (None, p)
            /\ forall index', In index' pairings ->
                 exists p0, fst (segmentsCross (data c) index' p0) = false))
    /\ r_triangles r
       = [ Arr3 (-1)%Z (sel (vertex c) (r_index r) K0) (sel (vertex c) (r_index r) K2);
           Arr3 (-1)%Z (sel (vertex c) (r_index r) K2) (sel (vertex c) (r_index r) K1);
           Arr3 (-1)%Z (sel (vertex c) (r_index r) K1) (sel (vertex c) (r_index r) K3);
           Arr3 (-1)%Z (sel (vertex c) (r_index r) K3) (sel (vertex c) (r_index r) K0) ].
Proof.
  intros c Hquad r p. subst p r.
  destruct (processLoaded_quad c Hquad) as (Hidx & Himg & Htri).
  pose proof (crossing_outcome (data c)) as [Hin _].
  rewrite Hidx, Himg, Htri. cbn [get3 a3_0 a3_1 a3_2].
  rewrite <- surjective_pairing.
  rewrite (crossing_first (data c) (Arr4 K0 K1 K2 K3)) in *.
  destruct (firstCrossing (data c) pairings (d_zero, d_zero))
    as [[found |] q] eqn:Hfirst; cbn [fst snd] in *.
  - split; [exact Hin |]. split; [now apply pairings_are_permutations |].
    split; [reflexivity |]. split; [reflexivity |]. split; [| reflexivity].
    left. destruct (firstCrossing_Some _ _ _ Hfirst)
      as (before & after & p0 & Hsplit & Hbefore & Hfound).
    exists before, after, p0. split; [exact Hsplit |]. split; [exact Hbefore |].
    split; [| exact Hfound]. exact (firstCrossing_None _ _ _ Hbefore).
  - split; [exact Hin |]. split; [reflexivity |].
    split; [reflexivity |]. split; [reflexivity |]. split; [| reflexivity].
    right. split; [reflexivity |]. split; [reflexivity |].
    exact (firstCrossing_None _ _ _ Hfirst).
Qed.

(** X9. Every vertex id in an emitted triangle is -1 or the id of one of
    the four vertices of the cell; in the InTriangle case it is always the id
    of a vertex of the cell. *)
Theorem triangle_ids_from_cell :
  forall c : CellData,
    Forall (fun tr : Triangle =>
              forall slot, tr.[slot] = (-1)%Z \/ exists k, tr.[slot] = (vertex c).<<k>>)
           (r_triangles (processLoaded c))
    /\ (if r_isInTriangle (processLoaded c)
        then Forall (fun tr : Triangle =>
                       forall slot, exists k, tr.[slot] = (vertex c).<<k>>)
                    (r_triangles (processLoaded c))
        else True).
Proof.
  intros c. unfold processLoaded.
  destruct (gradient (position c) (data c)) as [g0 g1].
  destruct (classify (data c)) as [[|] index]; cbn [r_triangles r_isInTriangle].
  - unfold projectInTriangle.
    destruct (baseArea (data c) index == 0); cbn [p_triangles];
      (split; repeat (apply Forall_cons); try apply Forall_nil;
       intros slot; destruct slot; cbn [get3 a3_0 a3_1 a3_2]; unfold sel;
       try right; eexists; reflexivity).
  - unfold projectQuad.
    destruct (crossing (data c) index) as [index' [px py]]. cbn [p_triangles].
    split; [| exact I].
    repeat (apply Forall_cons); try apply Forall_nil;
      intros slot; destruct slot; cbn [get3 a3_0 a3_1 a3_2]; unfold sel;
      first [now left | right; eexists; reflexivity].
Qed.

End QuadMore.

(** ** Sequences of [setDummyValue] calls *)

Section SetterMore.
Context {S : Scalar}.

Lemma setDummyValues_disabled (calls : list (bool * dbl)) :
  forall this : ContinuousScatterPlot,
    Forall (fun call => fst call = false) calls ->
    setDummyValues calls this = this.
Proof.
  induction calls as [| [b x] calls IH]; intros this Hall; [reflexivity |].
  inversion Hall as [| ? ? Hb Hrest]; subst. cbn [fst] in Hb. subst b.
  cbn. now apply IH.
Qed.

Lemma setDummyValues_app (pre post : list (bool * dbl)) (this : ContinuousScatterPlot) :
  setDummyValues (pre ++ post) this = setDummyValues post (setDummyValues pre this).
Proof. unfold setDummyValues. apply fold_left_app. Qed.

Lemma setDummyValues_cons (call : bool * dbl) (calls : list (bool * dbl))
    (this : ContinuousScatterPlot) :
  setDummyValues (call :: calls) this
  = setDummyValues calls (snd (setDummyValue this (fst call) (snd call))).
Proof. reflexivity. Qed.

Lemma setDummyValues_frame (calls : list (bool * dbl)) :
  forall this : ContinuousScatterPlot,
    vertexNumber_ (setDummyValues calls this) = vertexNumber_ this
    /\ resolutions_ (setDummyValues calls this) = resolutions_ this
    /\ scalarMin_ (setDummyValues calls this) = scalarMin_ this
    /\ scalarMax_ (setDummyValues calls this) = scalarMax_ this
    /\ density_ (setDummyValues calls this) = density_ this
    /\ validPointMask_ (setDummyValues calls this) = validPointMask_ this.
Proof.
  induction calls as [| [b x] calls IH]; intros this; [repeat split |].
  rewrite setDummyValues_cons. cbn [fst snd].
  destruct (IH (snd (setDummyValue this b x))) as (H1 & H2 & H3 & H4 & H5 & H6).
  rewrite H1, H2, H3, H4, H5, H6. destruct b; repeat split.
Qed.

(** X10. After a sequence of [setDummyValue] calls, the dummy value is the
    one of the last call whose flag was true, the mode is on, and no other
    member has changed; calls with the flag false change nothing. *)
Theorem setDummyValues_last_enabling_call :
  forall (this : ContinuousScatterPlot) (pre post : list (bool * dbl)) (x : dbl),
    Forall (fun call => fst call = false) post ->
    let after := setDummyValues (pre ++ (true, x) :: post) this in
    withDummyValue_ after = true
    /\ dummyValue_ after = x
    /\ vertexNumber_ after = vertexNumber_ this
    /\ resolutions_ after = resolutions_ this
    /\ scalarMin_ after = scalarMin_ this
    /\ scalarMax_ after = scalarMax_ this
    /\ density_ after = density_ this
    /\ validPointMask_ after = validPointMask_ this.
Proof.
  intros this pre post x Hpost after.
  destruct (setDummyValues_frame (pre ++ (true, x) :: post) this) as (H1 & H2 & H3 & H4 & H5 & H6).
  subst after. repeat split; try assumption.
  - rewrite setDummyValues_app, setDummyValues_cons.
    now rewrite (@setDummyValues_disabled post _ Hpost).
  - rewrite setDummyValues_app, setDummyValues_cons.
    now rewrite (@setDummyValues_disabled post _ Hpost).
Qed.

End SetterMore.

(** ** A NaN as dummy value *)

Section IeeeMore.
#[local] Existing Instance Ieee.scalar.
Context {G : Planar}.

Lemma SFeqb_refl_or_nan (x : spec_float) :
  SFeqb x x = false -> x = S754_nan.
Proof.
  destruct x as [s | s | | s m e]; try destruct s; try reflexivity;
    unfold SFeqb, SFcompare; try discriminate;
    rewrite Z.compare_refl, Pos.compare_cont_refl; discriminate.
Qed.

Lemma SFeqb_nan_r (x : spec_float) : SFeqb x S754_nan = false.
Proof. destruct x as [s | s | | s m e]; reflexivity. Qed.

(** A NaN compares unequal to every [double]. *)
Lemma eqb_nan_r (x d : float) :
  PrimFloat.is_nan d = true -> PrimFloat.eqb x d = false.
Proof.
  unfold PrimFloat.is_nan. intros H. apply negb_true_iff in H.
  rewrite FloatAxioms.eqb_spec in H |- *.
  apply SFeqb_refl_or_nan in H. rewrite H. apply SFeqb_nan_r.
Qed.

(** X3. In binary64 arithmetic a NaN as dummy value matches no scalar: no
    cell is skipped, with the mode on or off. *)
Theorem nan_dummy_skips_nothing :
  forall (this : ContinuousScatterPlot) (s1 s2 : SimplexId -> float)
         (t : Triangulation) (triangles : list Triangle) (cell : SimplexId),
    PrimFloat.is_nan (dummyValue_ this) = true ->
    exists r, processCell this s1 s2 t triangles cell = (r_triangles r, Some r).
Proof.
  intros this s1 s2 t triangles cell Hnan. unfold processCell.
  destruct (loadCell this s1 s2 t cell) as [c |] eqn:Hload.
  - exists (processLoaded c). reflexivity.
  - exfalso. apply loadCell_None in Hload. destruct Hload as [k Hk].
    unfold dummyAt, isDummyData, readData in Hk. cbn [get3 a3_0 a3_1] in Hk.
    change (@d_eqb Ieee.scalar) with PrimFloat.eqb in Hk.
    rewrite !(fun x => @eqb_nan_r x _ Hnan) in Hk.
    rewrite andb_false_r in Hk. discriminate Hk.
Qed.
End IeeeMore.

(** ** Loader statistics and gradients in exact arithmetic *)

Section ExactMore.
#[local] Existing Instance Exact.scalar.
Context {G : Planar}.
Local Open Scope R_scope.

Lemma Arr3_eq (a b c a' b' c' : R) :
  a = a' -> b = b' -> c = c' -> Arr3 a b c = Arr3 a' b' c'.
Proof. now intros -> -> ->. Qed.

(** Unfolds the vector operations down to the arithmetic of [R]. *)
Ltac to_real_arith :=
  unfold det, gradient, edgeVector, scalarDiff, dotProduct,
    crossProduct, build3, zero3;
  cbn [get3 get4 a3_0 a3_1 a3_2 a4_0 a4_1 a4_2 a4_3
       d_add d_sub d_mul d_div d_zero d_one f_sub f_val d_eqb Exact.scalar].

Lemma running_min (a b c d : R) :
  let m1 := if Exact.Rltb b a then b else a in
  let m2 := if Exact.Rltb c m1 then c else m1 in
  let m3 := if Exact.Rltb d m2 then d else m2 in
  (m3 <= a /\ m3 <= b /\ m3 <= c /\ m3 <= d)
  /\ (m3 = a \/ m3 = b \/ m3 = c \/ m3 = d).
Proof.
  cbv zeta. unfold Exact.Rltb.
  destruct (Rlt_dec b a); destruct (Rlt_dec c _); destruct (Rlt_dec d _);
    repeat split; try lra; tauto.
Qed.

Lemma running_max (a b c d : R) :
  let m1 := if Exact.Rltb a b then b else a in
  let m2 := if Exact.Rltb m1 c then c else m1 in
  let m3 := if Exact.Rltb m2 d then d else m2 in
  (a <= m3 /\ b <= m3 /\ c <= m3 /\ d <= m3)
  /\ (m3 = a \/ m3 = b \/ m3 = c \/ m3 = d).
Proof.
  cbv zeta. unfold Exact.Rltb.
  destruct (Rlt_dec a b); destruct (Rlt_dec _ c); destruct (Rlt_dec _ d);
    repeat split; try lra; tauto.
Qed.

(** X4. In exact arithmetic, when the loader runs to its end
    [localScalarMin] and [localScalarMax] hold, for each of the two scalars,
    the least and the greatest of its four values at the vertices. *)
Theorem local_stats_are_extrema :
  forall (this : ContinuousScatterPlot) (s1 s2 : SimplexId -> R)
         (t : Triangulation) (cell : SimplexId),
    match loadCell this s1 s2 t cell with
    | None => True
    | Some c =>
        spans (fst (localScalarMin c)) (fst (localScalarMax c))
              (data c).<<K0>>.[X0] (data c).<<K1>>.[X0]
              (data c).<<K2>>.[X0] (data c).<<K3>>.[X0]
        /\ spans (snd (localScalarMin c)) (snd (localScalarMax c))
                 (data c).<<K0>>.[X1] (data c).<<K1>>.[X1]
                 (data c).<<K2>>.[X1] (data c).<<K3>>.[X1]
    end.
Proof.
  intros this s1 s2 t cell. unfold loadCell, loadVertex.
  do 4 (match goal with
        | |- context [if isDummyData ?o ?d then _ else _] =>
            destruct (isDummyData o d); [exact I |]
        end).
  unfold updateStats, readData.
  cbn [idx4_eqb orb fst snd data localScalarMin localScalarMax get3 get4
       a3_0 a3_1 a3_2 a4_0 a4_1 a4_2 a4_3 d_ltb Exact.scalar].
  set (a0 := s1 (getCellVertex t cell K0)). set (a1 := s1 (getCellVertex t cell K1)).
  set (a2 := s1 (getCellVertex t cell K2)). set (a3 := s1 (getCellVertex t cell K3)).
  set (b0 := s2 (getCellVertex t cell K0)). set (b1 := s2 (getCellVertex t cell K1)).
  set (b2 := s2 (getCellVertex t cell K2)). set (b3 := s2 (getCellVertex t cell K3)).
  pose proof (running_min a0 a1 a2 a3) as [Hmin0 Hatt0].
  pose proof (running_max a0 a1 a2 a3) as [Hmax0 Hatx0].
  pose proof (running_min b0 b1 b2 b3) as [Hmin1 Hatt1].
  pose proof (running_max b0 b1 b2 b3) as [Hmax1 Hatx1].
  unfold spans. repeat split; first [apply Hmin0 | apply Hmax0 | apply Hmin1 | apply Hmax1 | assumption].
Qed.
(** X5. In exact arithmetic, when the two scalars are affine functions of
    the position and [det] is not zero, [g0] and [g1] are the gradients of
    these functions. *)
Theorem gradient_of_affine_field :
  forall (position : array4 (array3 R)) (c0 c1 : R) (G0 G1 : array3 R)
         (data : array4 (array3 R)),
    det position <> 0 ->
    (forall k, data.<<k>> = Arr3 (affineField c0 G0 position.<<k>>)
                                 (affineField c1 G1 position.<<k>>) 0) ->
    gradient position data = (G0, G1).
Proof.
  intros [[x0 y0 z0] [x1 y1 z1] [x2 y2 z2] [x3 y3 z3]] c0 c1
         [u0 u1 u2] [w0 w1 w2] data Hdet Hdata.
  destruct data as [d0 d1 d2 d3].
  pose proof (Hdata K0) as H0. pose proof (Hdata K1) as H1.
  pose proof (Hdata K2) as H2. pose proof (Hdata K3) as H3.
  cbn [get4 a4_0 a4_1 a4_2 a4_3] in H0, H1, H2, H3. subst d0 d1 d2 d3.
  revert Hdet. unfold affineField. to_real_arith. intros Hdet.
  match goal with
  | |- context [Exact.Reqb ?e 0] => destruct (Exact.Reqb e 0) eqn:Hz
  end.
  { apply Reqb_true in Hz. contradiction. }
  clear Hz. f_equal; f_equal; simpl; field; exact Hdet.
Qed.

(** X6. In exact arithmetic, a cell with two of its vertices at the same
    point has [det = 0]: both gradients are zero, [isLimit] holds and the
    density is the sentinel. *)
Theorem repeated_vertex_is_limit :
  forall (c : CellData) (i j : idx4),
    i <> j ->
    (position c).<<i>> = (position c).<<j>> ->
    det (position c) = 0
    /\ r_g0 (processLoaded c) = zero3
    /\ r_g1 (processLoaded c) = zero3
    /\ r_isLimit (processLoaded c) = true
    /\ r_density (processLoaded c) = Exact.DBL_MAX.
Proof.
  intros c i j Hij Hpos.
  assert (Hdet : det (position c) = 0).
  { destruct (position c) as [[x0 y0 z0] [x1 y1 z1] [x2 y2 z2] [x3 y3 z3]].
    destruct i, j; try contradiction; cbn [get4 a4_0 a4_1 a4_2 a4_3] in Hpos;
      injection Hpos as -> -> ->; to_real_arith; simpl; ring. }
  split; [exact Hdet |].
  assert (Hvol : volumeOf zero3 zero3 = 0).
  { unfold volumeOf, magnitude. to_real_arith. simpl.
    replace (_ + _) with 0 by ring. apply sqrt_0. }
  destruct (@det_zero_branch _ _ c) as (H0 & H1 & _ & H3 & H4).
  - now apply Reqb_true.
  - rewrite Hvol. now apply Reqb_true.
  - repeat split; assumption.
Qed.

Lemma magnitude_zero : forall v : array3 R, v = zero3 -> magnitude v = 0.
Proof.
  intros v ->. unfold magnitude. to_real_arith. simpl.
  replace (_ + _) with 0 by ring. apply sqrt_0.
Qed.

(** X7. In exact arithmetic, a cell on which one of the two scalars has the
    same value at the four vertices has volume 0: [isLimit] holds and the
    density is the sentinel. *)
Theorem constant_channel_is_limit :
  forall (c : CellData) (ch : idx3),
    (ch = X0 \/ ch = X1) ->
    (forall k, (data c).<<k>>.[ch] = (data c).<<K0>>.[ch]) ->
    r_volume (processLoaded c) = 0
    /\ r_isLimit (processLoaded c) = true
    /\ r_density (processLoaded c) = Exact.DBL_MAX.
Proof.
  intros c ch Hch Hconst.
  destruct (processLoaded_density c) as (Hv & Hg & Hl & Hd & _).
  assert (Hzero : r_g0 (processLoaded c) = zero3 \/ r_g1 (processLoaded c) = zero3).
  { pose proof (Hconst K1) as E1. pose proof (Hconst K2) as E2. pose proof (Hconst K3) as E3.
    revert Hg E1 E2 E3.
    destruct (position c) as [[x0 y0 z0] [x1 y1 z1] [x2 y2 z2] [x3 y3 z3]].
    destruct (data c) as [[a0 b0 c0] [a1 b1 c1] [a2 b2 c2] [a3 b3 c3]].
    to_real_arith.
    match goal with
    | |- context [Exact.Reqb ?e 0] => destruct (Exact.Reqb e 0) eqn:Hz
    end.
    { intros Hg _ _ _. injection Hg as -> ->. now left. }
    intros Hg. injection Hg as -> ->.
    destruct Hch as [-> | ->]; cbn [get3 a3_0 a3_1 a3_2]; intros -> -> ->;
      [left | right]; unfold zero3; apply Arr3_eq; simpl; unfold Rdiv; ring. }
  assert (Hvol : r_volume (processLoaded c) = 0).
  { rewrite Hv. unfold volumeOf. apply magnitude_zero.
    destruct Hzero as [-> | ->];
      destruct (r_g0 (processLoaded c)) as [p q r];
      destruct (r_g1 (processLoaded c)) as [p' q' r'];
      to_real_arith; unfold zero3; apply Arr3_eq; simpl; ring. }
  split; [exact Hvol |].
  assert (Hlim : r_isLimit (processLoaded c) = true).
  { rewrite Hl, Hvol.
    replace (@d_eqb Exact.scalar 0 (@d_zero Exact.scalar)) with true; [reflexivity |].
    symmetry. now apply Reqb_true. }
  split; [exact Hlim |]. rewrite Hd, Hlim. reflexivity.
Qed.

End ExactMore.

(** ** [ttkContourAroundPoint::preconditionConstraints] *)
Section CapInvariant.
Context {S : Scalar} {N : Numerics}.
Local Open Scope dbl_scope.





(** X12. When the points are not [float]s, or one of the five arrays is
    missing, or (with assertions on) a cell has not two points, the call
    returns false and leaves [_isovals], [_coords] and [_flags] as they
    were. *)
Theorem preconditionConstraints_rejects :
  forall (ndebug : bool) (setupConstraints : list crd -> list iso -> list Z -> nat -> Z)
         (this : ContourAroundPoint) (input : ConstraintInput),
    rejectedEarly ndebug input = true ->
    let result := preconditionConstraints ndebug setupConstraints this input in
    fst result = false
    /\ _isovals (snd result) = _isovals this
    /\ _coords (snd result) = _coords this
    /\ _flags (snd result) = _flags this.
Proof.
  intros ndebug setup this input. unfold rejectedEarly, preconditionConstraints.
  destruct (pointsAreFloat input); cbn [negb orb]; [| intros _; repeat split].
  destruct (RegionSize input) as [sizeBuf |]; [| intros _; repeat split].
  destruct (CriticalType input) as [codeBuf |]; [| intros _; repeat split].
  destruct (Scalar_ input) as [scalarBuf |]; [| intros _; repeat split].
  cbn [orb].
  destruct (negb ndebug && negb (maxCellSize input =? 2)%Z); cbn [orb];
    [intros _; repeat split |].
  destruct (upNodeId input) as [c2p |]; [| intros _; repeat split].
  destruct (downNodeId input) as [c2q |]; [| intros _; repeat split].
  discriminate.
Qed.

End CapInvariant.

Section CapPoints.
Context {S : Scalar} {N : Numerics}.
Local Open Scope dbl_scope.

Lemma not_saddle (code : Z) :
  negb (code =? minCode)%Z && negb (code =? maxCode)%Z = false ->
  code = minCode \/ code = maxCode.
Proof.
  destruct (Z.eqb_spec code minCode) as [E | E]; [now left |].
  destruct (Z.eqb_spec code maxCode) as [E' | E']; [now right | discriminate].
Qed.

Lemma pushConstraint_for (input : ConstraintInput) (codeBuf : Z -> Z)
    (ns : list Z) (this : ContourAroundPoint) (v : iso) (n : Z) :
  constraintsFor input codeBuf ns this ->
  constraintsFor input codeBuf (ns ++ [n])
    (pushConstraint this input v n (if (codeBuf n =? minCode)%Z then 0%Z else 1%Z)).
Proof.
  intros (Hc & Hf & Hl). unfold constraintsFor, pushConstraint.
  cbn [_coords _flags _isovals].
  rewrite flat_map_app, map_app, !length_app, Hc, Hf, Hl. cbn [flat_map map length].
  rewrite app_nil_r. repeat split.
Qed.

Lemma arcStep_points (input : ConstraintInput)
    (sizeBuf codeBuf : Z -> Z) (scalarBuf : Z -> flt) (c2p c2q : Z -> Z)
    (sadFac extFac minSize : dbl) (ns : list Z) (this : ContourAroundPoint) (c : Z) :
  constraintsFor input codeBuf ns this ->
  exists new,
    constraintsFor input codeBuf (ns ++ new)
      (arcStep input sizeBuf codeBuf scalarBuf c2p c2q sadFac extFac minSize this c)
    /\ Forall (extremumOfArc codeBuf c2p c2q c) new
    /\ (length new <= 2)%nat.
Proof.
  intros Hfor. unfold arcStep.
  assert (Hnone : exists new,
             constraintsFor input codeBuf (ns ++ new) this
             /\ Forall (extremumOfArc codeBuf c2p c2q c) new
             /\ (length new <= 2)%nat).
  { exists []. rewrite app_nil_r. repeat split; [apply Hfor .. | constructor | cbn; lia]. }
  destruct (negb (codeBuf (c2p c) =? minCode)%Z && negb (codeBuf (c2p c) =? maxCode)%Z)
    eqn:Hp;
    destruct (negb (codeBuf (c2q c) =? minCode)%Z && negb (codeBuf (c2q c) =? maxCode)%Z)
      eqn:Hq;
    cbn [orb andb].
  - exact Hnone.
  - destruct (int_to_double (sizeBuf (c2q c)) <? minSize); [exact Hnone |].
    exists [c2q c]. split; [now apply pushConstraint_for |].
    split; [| cbn; lia]. constructor; [| constructor].
    split; [now right | now apply not_saddle].
  - destruct (int_to_double (sizeBuf (c2p c)) <? minSize); [exact Hnone |].
    exists [c2p c]. split; [now apply pushConstraint_for |].
    split; [| cbn; lia]. constructor; [| constructor].
    split; [now left | now apply not_saddle].
  - assert (Hlog : constraintsFor input codeBuf ns (logMessage this (WarnMinMaxArc c)))
      by exact Hfor.
    assert (Ep : extremumOfArc codeBuf c2p c2q c (c2p c))
      by (split; [now left | now apply not_saddle]).
    assert (Eq : extremumOfArc codeBuf c2p c2q c (c2q c))
      by (split; [now right | now apply not_saddle]).
    destruct (d_geb (int_to_double (sizeBuf (c2p c))) minSize);
      destruct (d_geb (int_to_double (sizeBuf (c2q c))) minSize).
    + exists [c2p c; c2q c]. split; [| split; [repeat (apply Forall_cons; [assumption |]); apply Forall_nil | cbn; lia]].
      change (ns ++ [c2p c; c2q c]) with (ns ++ [c2p c] ++ [c2q c]).
      rewrite app_assoc. now apply pushConstraint_for, pushConstraint_for.
    + exists [c2p c]. split; [now apply pushConstraint_for |].
      split; [repeat (apply Forall_cons; [assumption |]); apply Forall_nil | cbn; lia].
    + exists [c2q c]. split; [now apply pushConstraint_for |].
      split; [repeat (apply Forall_cons; [assumption |]); apply Forall_nil | cbn; lia].
    + exists []. rewrite app_nil_r. repeat split; [apply Hfor .. | constructor | cbn; lia].
Qed.

Lemma arcLoop_points (input : ConstraintInput)
    (sizeBuf codeBuf : Z -> Z) (scalarBuf : Z -> flt) (c2p c2q : Z -> Z)
    (sadFac extFac minSize : dbl) (count : nat) :
  forall (c0 : Z) (ns : list Z) (this : ContourAroundPoint),
    constraintsFor input codeBuf ns this ->
    exists new,
      constraintsFor input codeBuf (ns ++ new)
        (arcLoop (arcStep input sizeBuf codeBuf scalarBuf c2p c2q
                          sadFac extFac minSize) count c0 this)
      /\ Forall (fun n => exists c, (c0 <= c < c0 + Z.of_nat count)%Z
                                    /\ extremumOfArc codeBuf c2p c2q c n) new.
Proof.
  induction count as [| count IH]; intros c0 ns this Hfor; cbn [arcLoop].
  - exists []. rewrite app_nil_r. split; [exact Hfor | constructor].
  - destruct (@arcStep_points input sizeBuf codeBuf scalarBuf c2p c2q
                sadFac extFac minSize ns this c0 Hfor) as (new1 & Hfor1 & Hext1 & _).
    destruct (IH (c0 + 1)%Z _ _ Hfor1) as (new2 & Hfor2 & Hext2).
    exists (new1 ++ new2). rewrite app_assoc. split; [exact Hfor2 |].
    apply Forall_app. split.
    + eapply Forall_impl; [| exact Hext1]. intros n Hn. exists c0. split; [lia | exact Hn].
    + eapply Forall_impl; [| exact Hext2]. intros n (c & Hc & Hn).
      exists c. split; [lia | exact Hn].
Qed.

(** X13. After a successful call every constraint belongs to an extremum
    at an end of one of the arcs, never to a saddle: the vectors hold its
    coordinates and the flag 0 for a minimum, 1 for a maximum. *)
Theorem constraints_are_extrema :
  forall (ndebug : bool) (setupConstraints : list crd -> list iso -> list Z -> nat -> Z)
         (this : ContourAroundPoint) (input : ConstraintInput)
         (codeBuf c2p c2q : Z -> Z),
    fst (preconditionConstraints ndebug setupConstraints this input) = true ->
    CriticalType input = Some codeBuf ->
    upNodeId input = Some c2p ->
    downNodeId input = Some c2q ->
    exists ns,
      constraintsFor input codeBuf ns
        (snd (preconditionConstraints ndebug setupConstraints this input))
      /\ Forall (fun n => exists c, (0 <= c < numberOfArcs input)%Z
                                    /\ extremumOfArc codeBuf c2p c2q c n) ns
      /\ _flags (snd (preconditionConstraints ndebug setupConstraints this input))
         = map (fun n => if (codeBuf n =? maxCode)%Z then 1%Z else 0%Z) ns.
Proof.
  intros ndebug setup this input codeBuf c2p c2q Hok Hcode Hup Hdown.
  revert Hok. unfold preconditionConstraints. rewrite Hcode, Hup, Hdown.
  destruct (pointsAreFloat input); cbn [negb]; [| discriminate].
  destruct (RegionSize input) as [sizeBuf |]; [| discriminate].
  destruct (Scalar_ input) as [scalarBuf |]; [| discriminate].
  destruct (negb ndebug && negb (maxCellSize input =? 2)%Z); [discriminate |].
  cbv zeta.
  match goal with
  | |- context [arcLoop ?step ?count ?c ?o] =>
      set (final := arcLoop step count c o)
  end.
  destruct (setup (_coords final) (_isovals final) (_flags final)
                  (length (_isovals final)) <? 0)%Z; [discriminate |].
  intros _. cbn [snd].
  assert (Hclear : constraintsFor input codeBuf [] (clearConstraints this))
    by (repeat split).
  destruct (@arcLoop_points input sizeBuf codeBuf scalarBuf c2p c2q
              (ui_extension this * lit_0_01)
              (1 - ui_extension this * lit_0_01)
              (_domainBbSize this * ui_sizeFilter this * lit_0_0001)
              (Z.to_nat (numberOfArcs input)) 0%Z [] _ Hclear) as (ns & Hfor & Hext).
  fold final in Hfor. cbn [app] in Hfor.
  assert (Hext' : Forall (fun n => exists c, (0 <= c < numberOfArcs input)%Z
                                             /\ extremumOfArc codeBuf c2p c2q c n) ns).
  { eapply Forall_impl; [| exact Hext]. intros n (c & Hc & Hn).
    exists c. split; [lia | exact Hn]. }
  exists ns. split; [exact Hfor |]. split; [exact Hext' |].
  destruct Hfor as (_ & Hflags & _). rewrite Hflags.
  apply map_ext_in. intros n Hn.
  rewrite Forall_forall in Hext'. destruct (Hext' n Hn) as (c & _ & _ & [E | E]);
    rewrite E; reflexivity.
Qed.

End CapPoints.

Section CapExact.
#[local] Existing Instance Exact.scalar.
#[local] Existing Instance ExactContour.numerics.
Local Open Scope R_scope.




(** X15. In exact arithmetic the bounding-box size of [preprocessDomain] is
    the product of the extents that are not zero: it is never zero, it is
    positive when no upper bound is below its lower bound, and it is 1 for a
    box that is a single point. *)
Theorem domainBbSize_not_zero :
  forall bounds : nat -> R,
    domainBbSize bounds <> 0
    /\ ((bounds 0%nat <= bounds 1%nat /\ bounds 2%nat <= bounds 3%nat
         /\ bounds 4%nat <= bounds 5%nat) ->
        0 < domainBbSize bounds)
    /\ ((bounds 0%nat = bounds 1%nat /\ bounds 2%nat = bounds 3%nat
         /\ bounds 4%nat = bounds 5%nat) ->
        domainBbSize bounds = 1).
Proof.
  intros bounds. unfold domainBbSize.
  cbn [fold_left Nat.mul Nat.add d_sub d_mul d_eqb d_one d_zero Exact.scalar].
  set (rx := bounds 1%nat - bounds 0%nat).
  set (ry := bounds 3%nat - bounds 2%nat).
  set (rz := bounds 5%nat - bounds 4%nat).
  assert (Hf : forall r, (if Exact.Reqb r 0 then 1 else r) <> 0).
  { intros r. destruct (Exact.Reqb r 0) eqn:E; [lra | now apply Reqb_false]. }
  assert (Hp : forall r, 0 <= r -> 0 < (if Exact.Reqb r 0 then 1 else r)).
  { intros r Hr. destruct (Exact.Reqb r 0) eqn:E; [lra |].
    apply Reqb_false in E. lra. }
  assert (Hone : forall r, r = 0 -> (if Exact.Reqb r 0 then 1 else r) = 1).
  { intros r ->. replace (Exact.Reqb 0 0) with true; [reflexivity |].
    symmetry. now apply Reqb_true. }
  split; [| split].
  - rewrite Rmult_1_l. repeat apply Rmult_integral_contrapositive_currified; apply Hf.
  - intros (Hx & Hy & Hz). rewrite Rmult_1_l.
    repeat apply Rmult_lt_0_compat; apply Hp; unfold rx, ry, rz; lra.
  - intros (Hx & Hy & Hz).
    rewrite !Hone; unfold rx, ry, rz; lra.
Qed.

End CapExact.

Section CellTypes.

Lemma bufferOf_middle (pre : list Z) (x : Z) (post : list Z) :
  bufferOf (pre ++ x :: post) (Z.of_nat (length pre)) = x.
Proof. unfold bufferOf. rewrite Nat2Z.id. apply nth_middle. Qed.

Lemma cellTypes_of_cellInfos (ndebug : bool) (cells : list (list Z)) :
  forall pre : list Z,
    Forall (fun ids => length ids = 2%nat \/ length ids = 3%nat) cells ->
    cellTypes ndebug (bufferOf (pre ++ cellInfos cells)) (length cells)
              (Z.of_nat (length pre))
    = Some (map cellTypeOf cells, Z.of_nat (length (pre ++ cellInfos cells))).
Proof.
  induction cells as [| ids cells IH]; intros pre Hall.
  - cbn. now rewrite app_nil_r.
  - inversion Hall as [| ? ? Hids Hrest]; subst.
    cbn [cellInfos flat_map length cellTypes map]. fold (cellInfos cells).
    cbn [app]. rewrite bufferOf_middle.
    assert (Hrange : ((2 <=? Z.of_nat (length ids))%Z
                      && (Z.of_nat (length ids) <=? 3)%Z) = true).
    { destruct Hids as [-> | ->]; reflexivity. }
    rewrite Hrange. cbn [negb]. rewrite andb_false_r.
    specialize (IH (pre ++ Z.of_nat (length ids) :: ids) Hrest).
    replace (Z.of_nat (length pre) + (Z.of_nat (length ids) + 1))%Z
      with (Z.of_nat (length (pre ++ Z.of_nat (length ids) :: ids)))
      by (rewrite length_app; cbn [length]; lia).
    replace (pre ++ Z.of_nat (length ids) :: ids ++ cellInfos cells)
      with ((pre ++ Z.of_nat (length ids) :: ids) ++ cellInfos cells)
      by (now rewrite <- app_assoc).
    rewrite IH. reflexivity.
Qed.

(** X16. On a buffer that holds lines and triangles, each as its vertex
    count followed by its vertex ids, the loop of [postprocess] finds one type
    per cell, [VTK_LINE] for two vertices and [VTK_TRIANGLE] for three, and
    ends with [cinfoCounter] at the size of the buffer: the number of cells
    plus the number of their vertices. *)
Theorem cellTypes_round_trip :
  forall (ndebug : bool) (cells : list (list Z)),
    Forall (fun ids => length ids = 2%nat \/ length ids = 3%nat) cells ->
    cellTypes ndebug (bufferOf (cellInfos cells)) (length cells) 0%Z
    = Some (map cellTypeOf cells, Z.of_nat (length (cellInfos cells)))
    /\ Z.of_nat (length (cellInfos cells))
       = (Z.of_nat (length cells)
          + fold_right (fun ids n => Z.of_nat (length ids) + n) 0 cells)%Z.
Proof.
  intros ndebug cells Hall. split.
  - exact (@cellTypes_of_cellInfos ndebug cells [] Hall).
  - clear Hall. induction cells as [| ids cells IH]; [reflexivity |].
    cbn [cellInfos flat_map fold_right length]. fold (cellInfos cells).
    cbn [app length]. rewrite length_app. lia.
Qed.

End CellTypes.

(** ** The further properties on sample inputs *)

Section IeeeMoreSamples.
#[local] Existing Instance Ieee.scalar.
#[local] Existing Instance Sample.planar.
#[local] Existing Instance IeeeContour.numerics.

Lemma execute_records_per_cell_witness :
  exists run,
    execute Sample.plotDummy (Some Sample.holed4) (Some Sample.field2)
            (Some Sample.threeTetra) = Returned run
    /\ status run = 0%Z
    /\ cells run
       = map (fun i => option_map processLoaded
                         (loadCell Sample.plotDummy Sample.holed4 Sample.field2
                                   Sample.threeTetra (Z.of_nat i)))
             (seq 0 (Z.to_nat (getNumberOfCells Sample.threeTetra))).
Proof.
  apply (@execute_records_per_cell Ieee.scalar Sample.planar Sample.plotDummy
           Sample.holed4 Sample.field2 Sample.threeTetra).
  - discriminate.
  - discriminate.
  - discriminate.
  - reflexivity.
  - reflexivity.
Defined.

(** The run of the witness: the second cell holds the dummy value and is
    skipped, and the third cell, which receives the triangles of the first
    in [triangles], leaves its own. *)
Example three_cells_run :
  match execute Sample.plotDummy (Some Sample.holed4) (Some Sample.field2)
                (Some Sample.threeTetra) with
  | Returned run =>
      map (option_map (fun r => (r_isInTriangle r, r_index r, r_triangles r)))
          (cells run)
      = [Some (true, Arr4 K0 K1 K2 K3, [Arr3 3 0 1; Arr3 3 0 2; Arr3 3 1 2]%Z);
         None;
         Some (true, Arr4 K0 K1 K2 K3, [Arr3 0 1 2; Arr3 0 1 3; Arr3 0 2 3]%Z)]
  | NullDereference => False
  end.
Proof. vm_compute. reflexivity. Qed.

Lemma nan_dummy_skips_nothing_witness :
  exists r,
    processCell SampleIeee.nanPlot Sample.field1 Sample.field2 Sample.unitTetra
                [] 0%Z
    = (r_triangles r, Some r).
Proof.
  apply (@nan_dummy_skips_nothing Sample.planar SampleIeee.nanPlot
           Sample.field1 Sample.field2 Sample.unitTetra [] 0%Z).
  reflexivity.
Defined.

(** On the corners of the unit square the diagonals 0–1 and 2–3 cross at
    (1/2, 1/2). *)
Example quad_cell_values :
  r_isInTriangle (processLoaded SampleIeee.quadCell) = false
  /\ r_index (processLoaded SampleIeee.quadCell) = Arr4 K0 K1 K2 K3
  /\ r_imaginaryPosition (processLoaded SampleIeee.quadCell)
     = Arr3 0.5%float 0.5%float 0%float
  /\ r_triangles (processLoaded SampleIeee.quadCell)
     = [Arr3 (-1) 0 2; Arr3 (-1) 2 1; Arr3 (-1) 1 3; Arr3 (-1) 3 0]%Z.
Proof. vm_compute. repeat split. Qed.

Lemma quad_case_outcome_witness :
  let c := SampleIeee.squareCell in
  let r := processLoaded c in
  let p := ((r_imaginaryPosition r).[X0], (r_imaginaryPosition r).[X1]) in
  In (r_index r) pairings
  /\ isPermutation (r_index r) = true
  /\ (r_imaginaryPosition r).[X2] = d_zero
  /\ (r_index r, p)
     = match firstCrossing (data c) pairings (d_zero, d_zero) with
       | (Some found, q) => (found, q)
       | (None, q) => (Arr4 K0 K1 K2 K3, q)
       end
  /\ ((exists before after p0,
          pairings = before ++ r_index r :: after
          /\ firstCrossing (data c) before (d_zero, d_zero) = (None, p0)
          /\ (forall index', In index' before ->
                 exists p', fst (segmentsCross (data c) index' p') = false)
          /\ segmentsCross (data c) (r_index r) p0 = (true, p))
      \/ (r_index r = Arr4 K0 K1 K2 K3
          /\ firstCrossing (data c) pairings (d_zero, d_zero) = (None, p)
          /\ forall index', In index' pairings ->
               exists p0, fst (segmentsCross (data c) index' p0) = false))
  /\ r_triangles r
     = [ Arr3 (-1)%Z (sel (vertex c) (r_index r) K0) (sel (vertex c) (r_index r) K2);
         Arr3 (-1)%Z (sel (vertex c) (r_index r) K2) (sel (vertex c) (r_index r) K1);
         Arr3 (-1)%Z (sel (vertex c) (r_index r) K1) (sel (vertex c) (r_index r) K3);
         Arr3 (-1)%Z (sel (vertex c) (r_index r) K3) (sel (vertex c) (r_index r) K0) ].
Proof.
  apply (@quad_case_outcome Ieee.scalar Sample.planar SampleIeee.squareCell).
  reflexivity.
Defined.

(** On the square the first pairing, of two opposite sides, is reported not
    to cross, and the second, of the two diagonals, is kept with the centre
    of the square. *)
Example square_cell_values :
  let r := processLoaded SampleIeee.squareCell in
  r_isInTriangle r = false
  /\ firstCrossing (data SampleIeee.squareCell) [Arr4 K0 K1 K2 K3] (0, 0)%float
     = (None, (0, 0)%float)
  /\ r_index r = Arr4 K0 K2 K1 K3
  /\ r_imaginaryPosition r = (Arr3 0.5 0.5 0)%float
  /\ r_triangles r
     = [Arr3 (-1) 0 1; Arr3 (-1) 1 2; Arr3 (-1) 2 3; Arr3 (-1) 3 0]%Z.
Proof. vm_compute. repeat split. Qed.

Lemma setDummyValues_last_enabling_call_witness :
  let after :=
    setDummyValues ([(false, 1%float)] ++ (true, 2%float) :: [(false, 3%float)])
                   Sample.plot in
  withDummyValue_ after = true
  /\ dummyValue_ after = 2%float
  /\ vertexNumber_ after = vertexNumber_ Sample.plot
  /\ resolutions_ after = resolutions_ Sample.plot
  /\ scalarMin_ after = scalarMin_ Sample.plot
  /\ scalarMax_ after = scalarMax_ Sample.plot
  /\ density_ after = density_ Sample.plot
  /\ validPointMask_ after = validPointMask_ Sample.plot.
Proof.
  apply (@setDummyValues_last_enabling_call Ieee.scalar Sample.plot
           [(false, 1%float)] [(false, 3%float)] 2%float).
  apply Forall_cons; [reflexivity | apply Forall_nil].
Defined.

(** The three arcs of the sample leave three constraints: one for the
    minimum of the arc 1–0, none for the two saddles of the arc 1–3, and two
    for the arc 2–0 that joins the maximum and the minimum. *)
Example arcs_sample_values :
  let result :=
    preconditionConstraints false SampleIeee.acceptAll SampleIeee.contour
                            SampleIeee.arcsInput in
  fst result = true
  /\ _flags (snd result) = [0; 1; 0]%Z
  /\ length (_isovals (snd result)) = 3%nat
  /\ length (_coords (snd result)) = 9%nat
  /\ cap_log (snd result) = [WarnMinMaxArc 2].
Proof. vm_compute. repeat split. Qed.


Lemma preconditionConstraints_rejects_witness :
  let result :=
    preconditionConstraints false SampleIeee.acceptAll SampleIeee.contour
                            SampleIeee.arcsWithoutScalar in
  fst result = false
  /\ _isovals (snd result) = _isovals SampleIeee.contour
  /\ _coords (snd result) = _coords SampleIeee.contour
  /\ _flags (snd result) = _flags SampleIeee.contour.
Proof.
  apply (@preconditionConstraints_rejects Ieee.scalar IeeeContour.numerics false
           SampleIeee.acceptAll SampleIeee.contour SampleIeee.arcsWithoutScalar).
  reflexivity.
Defined.

Lemma constraints_are_extrema_witness :
  exists ns,
    constraintsFor SampleIeee.arcsInput SampleIeee.nodeTypes ns
      (snd (preconditionConstraints false SampleIeee.acceptAll SampleIeee.contour
                                    SampleIeee.arcsInput))
    /\ Forall (fun n => exists c, (0 <= c < numberOfArcs SampleIeee.arcsInput)%Z
                                  /\ extremumOfArc SampleIeee.nodeTypes
                                       SampleIeee.upNodes SampleIeee.downNodes c n) ns
    /\ _flags (snd (preconditionConstraints false SampleIeee.acceptAll
                                            SampleIeee.contour SampleIeee.arcsInput))
       = map (fun n => if (SampleIeee.nodeTypes n =? maxCode)%Z then 1%Z else 0%Z) ns.
Proof.
  apply (@constraints_are_extrema Ieee.scalar IeeeContour.numerics false
           SampleIeee.acceptAll SampleIeee.contour SampleIeee.arcsInput
           SampleIeee.nodeTypes SampleIeee.upNodes SampleIeee.downNodes).
  - vm_compute. reflexivity.
  - reflexivity.
  - reflexivity.
  - reflexivity.
Defined.

Lemma cellTypes_round_trip_witness :
  cellTypes false (bufferOf (cellInfos [[0; 1]; [1; 2; 3]]%Z))
            (length [[0; 1]; [1; 2; 3]]%Z) 0%Z
  = Some (map cellTypeOf [[0; 1]; [1; 2; 3]]%Z,
          Z.of_nat (length (cellInfos [[0; 1]; [1; 2; 3]]%Z)))
  /\ Z.of_nat (length (cellInfos [[0; 1]; [1; 2; 3]]%Z))
     = (Z.of_nat (length [[0; 1]; [1; 2; 3]]%Z)
        + fold_right (fun ids n => Z.of_nat (length ids) + n) 0
                     [[0; 1]; [1; 2; 3]])%Z.
Proof.
  apply (@cellTypes_round_trip false [[0; 1]; [1; 2; 3]]%Z).
  apply Forall_cons; [now left |].
  apply Forall_cons; [now right | apply Forall_nil].
Defined.

End IeeeMoreSamples.

Section ExactMoreSamples.
#[local] Existing Instance Exact.scalar.
#[local] Existing Instance SampleExact.planar.
#[local] Existing Instance ExactContour.numerics.
Local Open Scope R_scope.

Lemma gradient_of_affine_field_witness :
  gradient Sample.realPosition Sample.realData = (Arr3 2 0 3, Arr3 0 3 2).
Proof.
  apply (@gradient_of_affine_field Sample.realPosition 1 2 (Arr3 2 0 3) (Arr3 0 3 2)
           Sample.realData).
  - unfold det, edgeVector, dotProduct, crossProduct, build3, Sample.realPosition.
    simpl. lra.
  - intros k. destruct k;
      unfold affineField, dotProduct, Sample.realPosition, Sample.realData;
      cbn [get3 get4 a3_0 a3_1 a3_2 a4_0 a4_1 a4_2 a4_3];
      apply Arr3_eq; simpl; lra.
Defined.

Lemma repeated_vertex_is_limit_witness :
  det (position SampleExact.pinchedCell) = 0
  /\ r_g0 (processLoaded SampleExact.pinchedCell) = zero3
  /\ r_g1 (processLoaded SampleExact.pinchedCell) = zero3
  /\ r_isLimit (processLoaded SampleExact.pinchedCell) = true
  /\ r_density (processLoaded SampleExact.pinchedCell) = Exact.DBL_MAX.
Proof.
  apply (@repeated_vertex_is_limit SampleExact.planar SampleExact.pinchedCell K1 K2).
  - discriminate.
  - reflexivity.
Defined.

Lemma constant_channel_is_limit_witness :
  r_volume (processLoaded SampleExact.levelCell) = 0
  /\ r_isLimit (processLoaded SampleExact.levelCell) = true
  /\ r_density (processLoaded SampleExact.levelCell) = Exact.DBL_MAX.
Proof.
  apply (@constant_channel_is_limit SampleExact.planar SampleExact.levelCell X0).
  - now left.
  - intros k. destruct k; reflexivity.
Defined.


End ExactMoreSamples.
